(** * The Knative plugin for Octant ([src/knative.ts]): routing, sorting, naming

    A shallow embedding of the class [MyPlugin].  The plugin is glue between
    the dashboard host and the cluster: it routes a content path to a handler,
    fetches objects through the host's [dashboardClient], sorts them, and
    hands them to view factories.  The host client, the collation behind
    [String.prototype.localeCompare] and the YAML printer are not the
    plugin's; they enter as the fields of [DashboardClient] and as the two
    variables of [Section Plugin]. *)

From Stdlib Require Import ZArith String Ascii List Permutation Sorted Lia.
From stdpp Require Import base option list gmap strings sorting.

Local Open Scope Z_scope.

(** ** JavaScript values the plugin computes with *)

(** A number as the comparators produce it: [NaN] or an integer.  JavaScript
    numbers are IEEE doubles; the integer is exact for magnitudes up to
    [MAX_SAFE_INTEGER], which is what [isSafeInteger] records. *)
Inductive JSNumber : Type :=
| NaN
| Num (z : Z).

Global Instance JSNumber_eq_dec : EqDecision JSNumber.
Proof. solve_decision. Defined.

Definition MAX_SAFE_INTEGER : Z := 9007199254740991.

Definition isSafeInteger (n : JSNumber) : Prop :=
  match n with
  | NaN => False
  | Num z => Z.abs z <= MAX_SAFE_INTEGER
  end.

(** [x - y] on numbers: exact, as the engine's subtraction is on the
    integers of [isSafeInteger]. *)
Definition minus (x y : JSNumber) : JSNumber :=
  match x, y with
  | Num a, Num b => Num (a - b)
  | _, _ => NaN
  end.

(** An exception value: [new Error(message)], or whatever the host client
    throws. *)
Record Error : Type := mkError { message : string }.

(** A value that may be [undefined] is an [option]; this is its rendering
    inside a template literal. *)
Definition templateString (v : option string) : string :=
  default "undefined" v.

(** *** Strings: [startsWith], [split], [parseInt]

    Strings are sequences of bytes here and of UTF-16 code units in the
    engine.  The three operations below only ever look for ASCII characters,
    which no multi-byte UTF-8 sequence contains, so they agree on both. *)

Fixpoint startsWith (s searchString : string) : bool :=
  match searchString, s with
  | EmptyString, _ => true
  | String c search', String d s' => if Ascii.eqb c d then startsWith s' search' else false
  | String _ _, EmptyString => false
  end.

(** [s.split("/")]: the pieces between the slashes, of which there is always
    at least one. *)
Fixpoint split_slash (s : string) : list string :=
  match s with
  | EmptyString => [EmptyString]
  | String c s' =>
      if Ascii.eqb c "/"%char then EmptyString :: split_slash s'
      else match split_slash s' with
           | piece :: pieces => String c piece :: pieces
           | [] => [String c EmptyString]
           end
  end.

(** [StrWhiteSpaceChar], restricted to its ASCII members. *)
Definition isWhiteSpace (c : ascii) : bool :=
  match c with
  | "009"%char | "010"%char | "011"%char | "012"%char | "013"%char | " "%char => true
  | _ => false
  end.

Fixpoint trimStart (s : string) : string :=
  match s with
  | String c s' => if isWhiteSpace c then trimStart s' else s
  | EmptyString => s
  end.

(** The value of a character as a digit, in the widest radix. *)
Definition digitValue (c : ascii) : option Z :=
  let n := Z.of_N (N_of_ascii c) in
  if (48 <=? n) && (n <=? 57) then Some (n - 48)
  else if (97 <=? n) && (n <=? 122) then Some (n - 87)
  else if (65 <=? n) && (n <=? 90) then Some (n - 55)
  else None.

(** The longest prefix of radix-[radix] digits, read as a number; [acc] is
    [None] until a digit has been read. *)
Fixpoint parseDigits (radix : Z) (acc : option Z) (s : string) : option Z :=
  match s with
  | String c s' =>
      match digitValue c with
      | Some d =>
          if d <? radix then parseDigits radix (Some (default 0 acc * radix + d)) s'
          else acc
      | None => acc
      end
  | EmptyString => acc
  end.

(** [parseInt(s)] with no radix argument: leading white space, a sign, an
    optional [0x], then digits; [NaN] when no digit follows.  The digits are
    read exactly; the engine rounds what they denote to a number, which
    changes nothing for the integers of [isSafeInteger]. *)
Definition parseInt (s : string) : JSNumber :=
  let s1 := trimStart s in
  let '(sign, s2) :=
    match s1 with
    | String "-"%char r => (-1, r)
    | String "+"%char r => (1, r)
    | _ => (1, s1)
    end in
  let '(radix, s3) :=
    match s2 with
    | String "0"%char (String "x"%char r) => (16, r)
    | String "0"%char (String "X"%char r) => (16, r)
    | _ => (10, s2)
    end in
  match parseDigits radix None s3 with
  | None => NaN
  | Some n => Num (sign * n)
  end.

(** *** [Array.prototype.sort]

    The engine's sort, as a stable insertion sort: each element in turn moves
    left past the elements it compares strictly below.  The sorted prefix is
    kept back to front while it is built.  [SortCompare] is the standard's
    wrapper around the comparator: a [NaN] result counts as zero.  The
    standard asks for a stable sort, so for a consistent comparator the
    result is sorted and keeps ties in their order, here as in any engine
    ([Array_sort_StronglySorted] and [Array_sort_stable] below).  For an
    inconsistent one, such as the revision comparator on a label that is
    not a number, the standard leaves the order to the implementation, and
    engines differ (some insert by binary search): what this definition
    returns on such a list is then one possible outcome among others. *)
Section ArraySort.
Context {A : Type}.
Variable comparefn : A -> A -> JSNumber.

Definition SortCompare (x y : A) : Z :=
  match comparefn x y with
  | NaN => 0
  | Num v => v
  end.

Fixpoint insertSorted (x : A) (prefix_rev : list A) : list A :=
  match prefix_rev with
  | [] => [x]
  | y :: rest =>
      if SortCompare x y <? 0 then y :: insertSorted x rest
      else x :: y :: rest
  end.

Definition Array_sort (l : list A) : list A :=
  reverse (fold_left (fun prefix_rev x => insertSorted x prefix_rev) l []).

End ArraySort.

(** ** The host's data: objects, keys, the dashboard client *)

(** Modelled from the spec: the object types of [./serving/*] are declared
    outside [knative.ts].  The spec speaks of "a generation label parsed
    from map lookups", so the labels are a map; of [V1ObjectMeta] the model
    keeps the fields the plugin reads, each of them optional. *)
Record V1ObjectMeta : Type := mkMeta {
  meta_name : option string;
  meta_namespace : option string;
  meta_labels : option (gmap string string)
}.

(** Modelled from the spec: a Service, Configuration, Route or Revision, the
    "three resource kinds ... plus their associated Revisions", as the
    client returns it.  [obj_rest] stands for the fields the plugin never
    looks into ([spec], [status]). *)
Record KObject : Type := mkObject {
  obj_apiVersion : string;
  obj_kind : string;
  metadata : V1ObjectMeta;
  obj_rest : string
}.

Definition Service : Type := KObject.
Definition Configuration : Type := KObject.
Definition Route : Type := KObject.
Definition Revision : Type := KObject.

(** Modelled from the spec: [octant.Key] of [./octant/plugin], the argument
    of the "host-provided query client", with the fields the plugin sets.
    An absent field and a field set to [undefined] are both [None]. *)
Record Key : Type := mkKey {
  key_apiVersion : string;
  key_kind : string;
  key_namespace : string;
  key_name : option string;
  key_selector : option (gmap string (option string))
}.

(** How a call ends: with a value, or with a thrown exception. *)
Inductive Completion (A : Type) : Type :=
| Return (a : A)
| Throw (e : Error).
Arguments Return {A} a.
Arguments Throw {A} e.

(** Modelled from the spec: [octant.DashboardClient] of [./octant/plugin],
    the "host-supplied client" the plugin fetches through.  Of its methods
    the plugin calls [Get] and [List]; either may throw. *)
Record DashboardClient : Type := mkClient {
  Get : Key -> Completion KObject;
  List : Key -> Completion (list KObject)
}.

(** Modelled from the spec: [octant.HTTPClient] of [./octant/plugin]; the
    plugin stores it and never calls it. *)
Variant HTTPClient : Type := theHTTPClient.

(** ** Calls into the host, in order

    A computation of the plugin yields the calls it made to the client, in
    order, and how it ended.  A call that throws ends the computation. *)
Inductive Call : Type :=
| GetCall (k : Key)
| ListCall (k : Key).

Definition Host (A : Type) : Type := (list Call * Completion A)%type.

Definition calls {A} (m : Host A) : list Call := fst m.
Definition result {A} (m : Host A) : Completion A := snd m.

Definition ret {A} (a : A) : Host A := ([], Return a).

Definition bind {A B} (m : Host A) (f : A -> Host B) : Host B :=
  match snd m with
  | Return a => (fst m ++ fst (f a), snd (f a))
  | Throw e => (fst m, Throw e)
  end.

Notation "'let*' x ':=' m 'in' k" := (bind m (fun x => k))
  (at level 10, x name, m at level 100, k at level 200).

Definition callGet (c : DashboardClient) (k : Key) : Host KObject :=
  ([GetCall k], Get c k).

Definition callList (c : DashboardClient) (k : Key) : Host (list KObject) :=
  ([ListCall k], List c k).

(** What the client answers to a call, seen only as success or failure. *)
Definition failure (c : DashboardClient) (call : Call) : option Error :=
  match call with
  | GetCall k => match Get c k with Throw e => Some e | Return _ => None end
  | ListCall k => match List c k with Throw e => Some e | Return _ => None end
  end.

(** ** The view model: component factories *)

(** The action a button sends, its confirmation dialogue, and the object an
    editor is opened on: the object literals of the source. *)

Record ButtonPayload : Type := mkPayload {
  pl_action : string;
  pl_apiVersion : string;
  pl_kind : string;
  pl_namespace : string;
  pl_name : option string
}.

Record Confirmation : Type := mkConfirmation {
  conf_title : string;
  conf_body : string
}.

Record Button : Type := mkButton {
  btn_name : string;
  btn_payload : ButtonPayload;
  btn_confirmation : Confirmation
}.

Record EditorMetadata : Type := mkEditorMetadata {
  ed_apiVersion : string;
  ed_kind : string;
  ed_namespace : string;
  ed_name : string
}.

(** Modelled from the spec: the factory classes of [./octant/*] and
    [./serving/*] are declared outside [knative.ts].  The spec calls them
    "declarative view-model objects" built as "nested display-object
    literals", so a factory is the record of the arguments it was
    constructed with, and [toComponent] marks a factory that was turned into
    a component. *)
Inductive ComponentFactory : Type :=
| TextFactory (value : option string)
| LinkFactory (value ref : string)
| ListFactory (items : list Component) (factoryMetadata : option FactoryMetadata)
| ButtonGroupFactory (buttons : list Button)
| EditorFactory (value : string) (readOnly : bool) (metadata : EditorMetadata)
    (factoryMetadata : option FactoryMetadata)
| ServiceListFactory (services : list Service) (factoryMetadata : option FactoryMetadata)
| ConfigurationListFactory (configurations : list Configuration)
    (factoryMetadata : option FactoryMetadata)
| RouteListFactory (routes : list Route) (factoryMetadata : option FactoryMetadata)
| ServiceSummaryFactory (service : Service) (revisions : list Revision)
    (factoryMetadata : option FactoryMetadata)
| ConfigurationSummaryFactory (configuration : Configuration) (revisions : list Revision)
    (factoryMetadata : option FactoryMetadata)
| RouteSummaryFactory (route : Route) (factoryMetadata : option FactoryMetadata)
with Component : Type :=
| toComponent (f : ComponentFactory)
with FactoryMetadata : Type :=
| mkFactoryMetadata (title : option (list Component)) (accessor : option string).

(** Modelled from the spec: [h.createContentResponse] of
    [./octant/component-helpers] is declared outside [knative.ts]; the
    response is what "the host then renders", and keeps the title, the body
    and the optional button group it was built from. *)
Record ContentResponse : Type := createContentResponse {
  resp_title : list ComponentFactory;
  resp_body : list ComponentFactory;
  resp_buttonGroup : option ComponentFactory
}.

(** Modelled from the spec: [h.Navigation] of [./octant/component-helpers] is
    declared outside [knative.ts].  The spec only says the plugin "registers
    navigation entries", so an entry keeps the title, path and icon it was
    given, and the tree keeps what its constructor and each [add] were
    given. *)
Record NavigationEntry : Type := mkEntry {
  entry_title : string;
  entry_path : string;
  entry_iconName : option string
}.

Record Navigation : Type := mkNavigation {
  nav_title : string;
  nav_path : string;
  nav_iconName : option string;
  nav_children : list NavigationEntry
}.

Definition new_Navigation (title path icon : string) : Navigation :=
  mkNavigation title path (Some icon) [].

Definition Navigation_add (nav : Navigation) (title path : string) : Navigation :=
  mkNavigation (nav_title nav) (nav_path nav) (nav_iconName nav)
    (nav_children nav ++ [mkEntry title path None]).

(** ** Requests and responses of the host *)

(** Modelled from the spec: the request types of [./octant/plugin], with the
    fields the plugin reads. *)
Record ContentRequest : Type := mkContentRequest { contentPath : string }.

Record ActionPayload : Type := mkActionPayload { payload_namespace : string }.

Record ActionRequest : Type := mkActionRequest {
  actionName : string;
  payload : ActionPayload
}.

(** [octant.ObjectRequest]: the object a print or tab request is about. *)
Record ObjectRequest : Type := mkObjectRequest { object : KObject }.

(** The three response types below are never built by the plugin. *)
Variant ActionResponse : Type := anActionResponse.
Variant PrintResponse : Type := aPrintResponse.
Variant TabResponse : Type := aTabResponse.

(** ** The plugin *)

Record GroupVersionKind : Type := mkGVK {
  gvk_group : string;
  gvk_version : string;
  gvk_kind : string
}.

Record Capabilities : Type := mkCapabilities {
  supportPrinterConfig : list GroupVersionKind;
  supportTab : list GroupVersionKind;
  actionNames : list string
}.

Record MyPlugin : Type := mkPlugin {
  name : string;
  description : string;
  isModule : bool;
  dashboardClient : DashboardClient;
  httpClient : HTTPClient;
  capabilities : Capabilities;
  namespace : string
}.

(** The field initialisers followed by the constructor's body. *)
Definition new_MyPlugin (dashboardClient : DashboardClient) (httpClient : HTTPClient)
  : MyPlugin :=
  {| name := "knative";
     description := "Knative plugin for Octant";
     isModule := true;
     dashboardClient := dashboardClient;
     httpClient := httpClient;
     capabilities :=
       {| supportPrinterConfig := [];
          supportTab := [];
          actionNames := ["knative/testAction"; "action.octant.dev/setNamespace"] |};
     namespace := "default" |}.

(** A method that can change the plugin's fields returns the plugin it
    leaves behind together with its completion. *)
Definition printHandler (this : MyPlugin) (request : ObjectRequest)
  : MyPlugin * Completion PrintResponse :=
  (this, Throw (mkError "KnativePlugin#printHandler should never be called")).

(** [None] is the [void] return. *)
Definition actionHandler (this : MyPlugin) (request : ActionRequest)
  : MyPlugin * Completion (option ActionResponse) :=
  if String.eqb (actionName request) "action.octant.dev/setNamespace" then
    ({| name := name this;
        description := description this;
        isModule := isModule this;
        dashboardClient := dashboardClient this;
        httpClient := httpClient this;
        capabilities := capabilities this;
        namespace := payload_namespace (payload request) |},
     Return None)
  else (this, Return None).

Definition tabHandler (this : MyPlugin) (request : ObjectRequest)
  : MyPlugin * Completion TabResponse :=
  (this, Throw (mkError "KnativePlugin#tabHandler should never be called")).

Definition navigationHandler (this : MyPlugin) : Navigation :=
  let nav := new_Navigation "Knative" "knative" "cloud" in
  let nav := Navigation_add nav "Services" "services" in
  let nav := Navigation_add nav "Configurations" "configurations" in
  let nav := Navigation_add nav "Routes" "routes" in
  nav.

(** ** Listings, details and the content handlers *)

(** The revision comparator of [serviceDetail] and [configurationDetail]:
    the label, or ["-1"] when the lookup is falsy, that is, when the label
    is missing or is the empty string. *)
Definition generationOf (r : Revision) : string :=
  match default ∅ (meta_labels (metadata r)) !! "serving.knative.dev/configurationGeneration" with
  | Some s => if String.eqb s "" then "-1" else s
  | None => "-1"
  end.

Definition compareGeneration (a b : Revision) : JSNumber :=
  let generationA := generationOf a in
  let generationB := generationOf b in
  minus (parseInt generationA) (parseInt generationB).

(** [x || ''] on an optional string: the empty string is falsy too, and
    is its own replacement. *)
Definition orEmpty (v : option string) : string := default "" v.

(** The Delete button of the three detail pages, which differ in [kind]. *)
Definition deleteButtonGroup (kind ns : string) (name : option string) : ComponentFactory :=
  ButtonGroupFactory
    [ {| btn_name := "Delete";
         btn_payload :=
           {| pl_action := "action.octant.dev/deleteObject";
              pl_apiVersion := "serving.knative.dev/v1";
              pl_kind := kind;
              pl_namespace := ns;
              pl_name := name |};
         btn_confirmation :=
           {| conf_title := "Delete " +:+ kind;
              conf_body := "Are you sure you want to delete *" +:+ kind +:+ "* **"
                +:+ templateString name
                +:+ "**? This action is permanent and cannot be recovered." |} |} ].

Section Plugin.

(** [a.localeCompare(b)]: negative, zero or positive, by the engine's
    collation. *)
Variable localeCompare : string -> string -> Z.

(** [YAML.stringify(JSON.parse(JSON.stringify(o)), { sortMapEntries: true })]. *)
Variable YAML_stringify : KObject -> string.

Definition compareName (a b : KObject) : JSNumber :=
  Num (localeCompare (orEmpty (meta_name (metadata a))) (orEmpty (meta_name (metadata b)))).

Definition serviceListing (this : MyPlugin) (factoryMetadata : option FactoryMetadata)
  : Host ComponentFactory :=
  let* services := callList (dashboardClient this)
    {| key_apiVersion := "serving.knative.dev/v1";
       key_kind := "Service";
       key_namespace := namespace this;
       key_name := None;
       key_selector := None |} in
  let services := Array_sort compareName services in
  ret (ServiceListFactory services factoryMetadata).

Definition yamlEditor (o : KObject) : ComponentFactory :=
  EditorFactory ("---" +:+ String "010"%char "" +:+ YAML_stringify o) false
    {| ed_apiVersion := obj_apiVersion o;
       ed_kind := obj_kind o;
       ed_namespace := orEmpty (meta_namespace (metadata o));
       ed_name := orEmpty (meta_name (metadata o)) |}
    (Some (mkFactoryMetadata (Some [toComponent (TextFactory (Some "YAML"))]) (Some "yaml"))).

Definition summaryMetadata : option FactoryMetadata :=
  Some (mkFactoryMetadata (Some [toComponent (TextFactory (Some "Summary"))]) (Some "summary")).

Definition serviceDetail (this : MyPlugin) (name : option string)
  : Host (list ComponentFactory) :=
  let* service := callGet (dashboardClient this)
    {| key_apiVersion := "serving.knative.dev/v1";
       key_kind := "Service";
       key_namespace := namespace this;
       key_name := name;
       key_selector := None |} in
  let* revisions := callList (dashboardClient this)
    {| key_apiVersion := "serving.knative.dev/v1";
       key_kind := "Revision";
       key_namespace := namespace this;
       key_name := None;
       key_selector := Some {[ "serving.knative.dev/service" := meta_name (metadata service) ]} |} in
  let revisions := Array_sort compareGeneration revisions in
  ret [ ServiceSummaryFactory service revisions summaryMetadata; yamlEditor service ].

Definition configurationListing (this : MyPlugin) (factoryMetadata : option FactoryMetadata)
  : Host ComponentFactory :=
  let* configurations := callList (dashboardClient this)
    {| key_apiVersion := "serving.knative.dev/v1";
       key_kind := "Configuration";
       key_namespace := namespace this;
       key_name := None;
       key_selector := None |} in
  let configurations := Array_sort compareName configurations in
  ret (ConfigurationListFactory configurations factoryMetadata).

Definition configurationDetail (this : MyPlugin) (name : option string)
  : Host (list ComponentFactory) :=
  let* configuration := callGet (dashboardClient this)
    {| key_apiVersion := "serving.knative.dev/v1";
       key_kind := "Configuration";
       key_namespace := namespace this;
       key_name := name;
       key_selector := None |} in
  let* revisions := callList (dashboardClient this)
    {| key_apiVersion := "serving.knative.dev/v1";
       key_kind := "Revision";
       key_namespace := namespace this;
       key_name := None;
       key_selector :=
         Some {[ "serving.knative.dev/configuration" := meta_name (metadata configuration) ]} |} in
  let revisions := Array_sort compareGeneration revisions in
  ret [ ConfigurationSummaryFactory configuration revisions summaryMetadata;
        yamlEditor configuration ].

Definition routeListing (this : MyPlugin) (factoryMetadata : option FactoryMetadata)
  : Host ComponentFactory :=
  let* routes := callList (dashboardClient this)
    {| key_apiVersion := "serving.knative.dev/v1";
       key_kind := "Route";
       key_namespace := namespace this;
       key_name := None;
       key_selector := None |} in
  let routes := Array_sort compareName routes in
  ret (RouteListFactory routes factoryMetadata).

Definition routeDetail (this : MyPlugin) (name : option string)
  : Host (list ComponentFactory) :=
  let* route := callGet (dashboardClient this)
    {| key_apiVersion := "serving.knative.dev/v1";
       key_kind := "Route";
       key_namespace := namespace this;
       key_name := name;
       key_selector := None |} in
  ret [ RouteSummaryFactory route summaryMetadata; yamlEditor route ].

(** [{ title: [new TextFactory({ value: s }).toComponent()] }]. *)
Definition titled (s : string) : option FactoryMetadata :=
  Some (mkFactoryMetadata (Some [toComponent (TextFactory (Some s))]) None).

Definition knativeOverviewHandler (this : MyPlugin) (request : ContentRequest)
  : Host ContentResponse :=
  let title := [TextFactory (Some "Knative")] in
  let* services := serviceListing this (titled "Services") in
  let* configurations := configurationListing this (titled "Configurations") in
  let* routes := routeListing this (titled "Routes") in
  let body := ListFactory
    [toComponent services; toComponent configurations; toComponent routes]
    (Some (mkFactoryMetadata (Some (map toComponent title)) None)) in
  ret (createContentResponse title [body] None).

Definition serviceListingHandler (this : MyPlugin) (request : ContentRequest)
  : Host ContentResponse :=
  let title := [LinkFactory "Knative" "/knative"; TextFactory (Some "Services")] in
  let* services := serviceListing this (titled "Services") in
  let body := ListFactory [toComponent services]
    (Some (mkFactoryMetadata (Some (map toComponent title)) None)) in
  ret (createContentResponse title [body] None).

(** [request.contentPath.split("/")[2]], [undefined] past the end. *)
Definition detailName (request : ContentRequest) : option string :=
  split_slash (contentPath request) !! 2%nat.

Definition serviceDetailHandler (this : MyPlugin) (request : ContentRequest)
  : Host ContentResponse :=
  let name := detailName request in
  let title := [LinkFactory "Knative" "/knative";
                LinkFactory "Services" "/knative/services";
                TextFactory name] in
  let* body := serviceDetail this name in
  let buttonGroup := deleteButtonGroup "Service" (namespace this) name in
  ret (createContentResponse title body (Some buttonGroup)).

Definition configurationListingHandler (this : MyPlugin) (request : ContentRequest)
  : Host ContentResponse :=
  let title := [LinkFactory "Knative" "/knative"; TextFactory (Some "Configurations")] in
  let* configurations := configurationListing this (titled "Configurations") in
  let body := ListFactory [toComponent configurations]
    (Some (mkFactoryMetadata (Some (map toComponent title)) None)) in
  ret (createContentResponse title [body] None).

Definition configurationDetailHandler (this : MyPlugin) (request : ContentRequest)
  : Host ContentResponse :=
  let name := detailName request in
  let title := [LinkFactory "Knative" "/knative";
                LinkFactory "Configurations" "/knative/configurations";
                TextFactory name] in
  let* body := configurationDetail this name in
  let buttonGroup := deleteButtonGroup "Configuration" (namespace this) name in
  ret (createContentResponse title body (Some buttonGroup)).

Definition routeListingHandler (this : MyPlugin) (request : ContentRequest)
  : Host ContentResponse :=
  let title := [LinkFactory "Knative" "/knative"; TextFactory (Some "Routes")] in
  let* routes := routeListing this (titled "Routes") in
  let body := ListFactory [toComponent routes]
    (Some (mkFactoryMetadata (Some (map toComponent title)) None)) in
  ret (createContentResponse title [body] None).

Definition routeDetailHandler (this : MyPlugin) (request : ContentRequest)
  : Host ContentResponse :=
  let name := detailName request in
  let title := [LinkFactory "Knative" "/knative";
                LinkFactory "Routes" "/knative/routes";
                TextFactory name] in
  let* body := routeDetail this name in
  let buttonGroup := deleteButtonGroup "Route" (namespace this) name in
  ret (createContentResponse title body (Some buttonGroup)).

Definition contentHandler (this : MyPlugin) (request : ContentRequest)
  : Host ContentResponse :=
  let contentPath := contentPath request in
  if String.eqb contentPath "" then knativeOverviewHandler this request
  else if String.eqb contentPath "/services" then serviceListingHandler this request
  else if startsWith contentPath "/services/" then serviceDetailHandler this request
  else if String.eqb contentPath "/configurations" then configurationListingHandler this request
  else if startsWith contentPath "/configurations/" then configurationDetailHandler this request
  else if String.eqb contentPath "/routes" then routeListingHandler this request
  else if startsWith contentPath "/routes/" then routeDetailHandler this request
  else
    let notFound := TextFactory (Some ("Not Found - " +:+ contentPath)) in
    ret (createContentResponse [notFound] [notFound] None).

(** ** Vocabulary of the statements *)

(** The keys the plugin asks for. *)
Definition listKey (kind ns : string) : Key :=
  mkKey "serving.knative.dev/v1" kind ns None None.

Definition getKey (kind ns : string) (name : option string) : Key :=
  mkKey "serving.knative.dev/v1" kind ns name None.

Definition revisionsKey (ns label : string) (owner : option string) : Key :=
  mkKey "serving.knative.dev/v1" "Revision" ns None (Some {[ label := owner ]}).

(** Failures are the client's and reach the caller as they are: a call that
    fails decides the result, and a thrown result comes from a call. *)
Definition propagates {A} (c : DashboardClient) (m : Host A) : Prop :=
  (forall call e, call ∈ calls m -> failure c call = Some e -> result m = Throw e) /\
  (forall e, result m = Throw e -> exists call, call ∈ calls m /\ failure c call = Some e).

(** The objects the client answered a call with. *)
Definition answerObjects (c : DashboardClient) (call : Call) : list KObject :=
  match call with
  | GetCall k => match Get c k with Return o => [o] | Throw _ => [] end
  | ListCall k => match List c k with Return l => l | Throw _ => [] end
  end.

(** The objects a factory was given to show. *)
Fixpoint objectsOf (f : ComponentFactory) : list KObject :=
  match f with
  | TextFactory _ | LinkFactory _ _ | ButtonGroupFactory _ | EditorFactory _ _ _ _ => []
  | ListFactory items _ =>
      flat_map (fun c => match c with toComponent f' => objectsOf f' end) items
  | ServiceListFactory l _ | ConfigurationListFactory l _ | RouteListFactory l _ => l
  | ServiceSummaryFactory o revisions _ | ConfigurationSummaryFactory o revisions _ =>
      o :: revisions
  | RouteSummaryFactory o _ => [o]
  end.

(** [part] occurs in [text]. *)
Definition contains (text part : string) : Prop :=
  exists before after, text = before +:+ part +:+ after.

Fixpoint hasSlash (s : string) : bool :=
  match s with
  | EmptyString => false
  | String c s' => Ascii.eqb c "/"%char || hasSlash s'
  end.

(** The piece of [s] before its first slash, all of [s] when it has none. *)
Fixpoint firstSegment (s : string) : string :=
  match s with
  | EmptyString => EmptyString
  | String c s' => if Ascii.eqb c "/"%char then EmptyString else String c (firstSegment s')
  end.

(** ["/" + s1 + "/" + s2 + ...], the rest of a path after the name. *)
Definition furtherSegments (segments : list string) : string :=
  fold_right (fun segment path => "/" +:+ segment +:+ path) "" segments.

(** The number a revision is sorted by. *)
Definition generationNumber (r : Revision) : JSNumber := parseInt (generationOf r).

(** The label is missing: no labels at all, or none under the key. *)
Definition unlabelled (r : Revision) : Prop :=
  default ∅ (meta_labels (metadata r)) !! "serving.knative.dev/configurationGeneration" = None.

Definition nonNegativeGeneration (r : Revision) : Prop :=
  exists z, generationNumber r = Num z /\ 0 <= z.

(** Both generations are numbers and the first is not above the second. *)
Definition generationLe (a b : Revision) : Prop :=
  match generationNumber a, generationNumber b with
  | Num x, Num y => x <= y
  | _, _ => False
  end.

(** Every revision without the label comes before every revision of
    non-negative generation. *)
Definition unlabelledFirst (l : list Revision) : Prop :=
  forall (i j : nat) a b,
    l !! i = Some a -> l !! j = Some b ->
    unlabelled a -> nonNegativeGeneration b -> (i < j)%nat.

(** The order of names under a collation. *)
Definition nameLe (localeCompare : string -> string -> Z) (a b : KObject) : Prop :=
  localeCompare (orEmpty (meta_name (metadata a))) (orEmpty (meta_name (metadata b))) <= 0.

(** Comparison by code units, one collation among others. *)
Definition codeUnitCompare (a b : string) : Z :=
  match String.compare a b with
  | Lt => -1
  | Eq => 0
  | Gt => 1
  end.

(** A detail page for [name]: the object is fetched under that name in the
    plugin's namespace; a failure of [detail] is the page's; otherwise the
    title ends in the name, the body is [detail]'s, and the one button,
    Delete, targets that kind, namespace and name. *)
Definition detailPageFor (kind : string) (this : MyPlugin) (name : string)
    (detail : Host (list ComponentFactory)) (page : Host ContentResponse) : Prop :=
  head (calls page) = Some (GetCall (getKey kind (namespace this) (Some name))) /\
  (forall e, result detail = Throw e -> result page = Throw e) /\
  (forall body, result detail = Return body ->
     exists links confirmation,
       result page = Return
         (createContentResponse (links ++ [TextFactory (Some name)]) body
            (Some (ButtonGroupFactory
               [mkButton "Delete"
                  (mkPayload "action.octant.dev/deleteObject" "serving.knative.dev/v1"
                     kind (namespace this) (Some name))
                  confirmation])))).

(** What the sort needs of a collation: the two ways round agree, and
    "not after" is transitive. *)
Definition consistentComparator (compare : string -> string -> Z) : Prop :=
  (forall a b, 0 <= compare a b -> compare b a <= 0) /\
  (forall a b c, compare a b <= 0 -> compare b c <= 0 -> compare a c <= 0).

(** The objects shown in the body of a response are those the client
    answered with. *)
Definition passedThrough (c : DashboardClient) (m : Host ContentResponse) : Prop :=
  forall response, result m = Return response ->
    flat_map objectsOf (resp_body response) ≡ₚ flat_map (answerObjects c) (calls m).

(** ** The plugin over its life

    The host constructs the plugin once and then sends it actions and
    content requests.  [runActions] is the plugin after a series of actions,
    and [lastNamespace] the namespace the last "setNamespace" among them
    asked for. *)
Definition runActions (this : MyPlugin) (requests : list ActionRequest) : MyPlugin :=
  fold_left (fun plugin request => fst (actionHandler plugin request)) requests this.

Definition lastNamespace (initial : string) (requests : list ActionRequest) : string :=
  fold_left
    (fun ns request =>
       if String.eqb (actionName request) "action.octant.dev/setNamespace"
       then payload_namespace (payload request) else ns)
    requests initial.

Definition callKey (call : Call) : Key :=
  match call with
  | GetCall k => k
  | ListCall k => k
  end.

(** A key of the serving API in namespace [ns]. *)
Definition servingKey (ns : string) (k : Key) : Prop :=
  key_namespace k = ns /\
  key_apiVersion k = "serving.knative.dev/v1" /\
  key_kind k ∈ ["Service"; "Configuration"; "Route"; "Revision"].

Fixpoint countSlashes (s : string) : nat :=
  match s with
  | EmptyString => 0%nat
  | String c s' => ((if Ascii.eqb c "/"%char then 1 else 0) + countSlashes s')%nat
  end.

(** The label is missing, or is the empty string. *)
Definition blankGeneration (r : Revision) : Prop :=
  unlabelled r \/
  default ∅ (meta_labels (metadata r)) !! "serving.knative.dev/configurationGeneration" = Some "".

(** The name an object is sorted by: [metadata.name || '']. *)
Definition nameOf (o : KObject) : string := orEmpty (meta_name (metadata o)).

(** The namespaces the buttons of a response act in. *)
Definition buttonNamespaces (response : ContentResponse) : list string :=
  match resp_buttonGroup response with
  | Some (ButtonGroupFactory buttons) => map (fun b => pl_namespace (btn_payload b)) buttons
  | _ => []
  end.

(** The path starts with one of the three detail prefixes. *)
Definition detailPath (p : string) : bool :=
  startsWith p "/services/" || startsWith p "/configurations/" || startsWith p "/routes/".

(** A listing page over [key]: one call; its failure is the page's;
    otherwise the breadcrumbs end in [label] and the body is one list, built
    by [factory] from the objects answered. *)
Definition listingPageOf (c : DashboardClient) (key : Key) (label : string)
    (factory : list KObject -> option FactoryMetadata -> ComponentFactory)
    (page : Host ContentResponse) : Prop :=
  calls page = [ListCall key] /\
  (forall e, List c key = Throw e -> result page = Throw e) /\
  (forall l, List c key = Return l ->
     exists shown fm,
       shown ≡ₚ l /\
       result page = Return
         (createContentResponse
            [LinkFactory "Knative" "/knative"; TextFactory (Some label)]
            [ListFactory [toComponent (factory shown (titled label))] fm]
            None)).



(** Every character of [s] is an ASCII character. *)
Fixpoint asciiOnly (s : string) : bool :=
  match s with
  | EmptyString => true
  | String c s' => (N_of_ascii c <? 128)%N && asciiOnly s'
  end.

(** The generation is as the engine computes it: an integer a number holds
    exactly, or not a number, read from a string of ASCII characters (among
    which [isWhiteSpace] knows all the white space there is). *)
Definition exactGeneration (r : Revision) : Prop :=
  (generationNumber r = NaN /\ asciiOnly (generationOf r) = true) \/
  isSafeInteger (generationNumber r).

(** ** Sample data *)

Definition sampleObject (kind name : string) (labels : option (gmap string string)) : KObject :=
  mkObject "serving.knative.dev/v1" kind (mkMeta (Some name) (Some "default") labels) "".

Definition sampleRevision (name : string) (generation : option string) : Revision :=
  sampleObject "Revision" name
    ((fun g => {[ "serving.knative.dev/configurationGeneration" := g ]}) <$> generation).

Definition helloService : Service := sampleObject "Service" "hello" None.
Definition adderService : Service := sampleObject "Service" "adder" None.

Definition revisionFive : Revision := sampleRevision "hello-00005" (Some "5").
Definition revisionCanary : Revision := sampleRevision "hello-canary" (Some "canary").
Definition revisionBare : Revision := sampleRevision "hello-bare" None.
Definition revisionTwo : Revision := sampleRevision "hello-00002" (Some "2").

(** A client of one namespace: it knows [helloService], lists [revisions]
    for any selector, and fails on everything else. *)
Definition sampleClient (revisions : list Revision) (services : list Service) : DashboardClient :=
  {| Get k :=
       match key_name k with
       | Some name =>
           if String.eqb (key_kind k) "Service" && String.eqb name "hello"
           then Return helloService
           else Throw (mkError "not found")
       | None => Throw (mkError "not found")
       end;
     List k :=
       if String.eqb (key_kind k) "Revision" then Return revisions
       else if String.eqb (key_kind k) "Service" then Return services
       else Throw (mkError "forbidden") |}.

Definition samplePlugin (revisions : list Revision) (services : list Service) : MyPlugin :=
  new_MyPlugin (sampleClient revisions services) theHTTPClient.

Definition sampleYAML (o : KObject) : string := "".

(** A client that fails on every call. *)
Definition deadClient : DashboardClient :=
  {| Get k := Throw (mkError "unreachable"); List k := Throw (mkError "unreachable") |}.

(** The same client and namespace behind another plugin object. *)
Definition otherPlugin (revisions : list Revision) (services : list Service) : MyPlugin :=
  {| name := "knative-again";
     description := "";
     isModule := true;
     dashboardClient := sampleClient revisions services;
     httpClient := theHTTPClient;
     capabilities := mkCapabilities [] [] [];
     namespace := "default" |}.

(** * Properties *)

(** ** What [Array_sort] guarantees *)

Section ArraySortFacts.
Context {A : Type}.
Variable comparefn : A -> A -> JSNumber.

Lemma insertSorted_Permutation (x : A) (prefix_rev : list A) :
  insertSorted comparefn x prefix_rev ≡ₚ x :: prefix_rev.
Proof.
  induction prefix_rev as [|y rest IH]; simpl; [reflexivity|].
  destruct (SortCompare comparefn x y <? 0); [|reflexivity].
  rewrite IH. apply Permutation_swap.
Qed.

Lemma fold_insertSorted_Permutation (l prefix_rev : list A) :
  fold_left (fun acc x => insertSorted comparefn x acc) l prefix_rev ≡ₚ l ++ prefix_rev.
Proof.
  revert prefix_rev. induction l as [|x l IH]; intros prefix_rev; simpl; [reflexivity|].
  rewrite IH, insertSorted_Permutation. symmetry. apply Permutation_middle.
Qed.

(** The sort neither drops nor invents an element. *)
Lemma Array_sort_Permutation (l : list A) : Array_sort comparefn l ≡ₚ l.
Proof.
  unfold Array_sort. rewrite reverse_Permutation, fold_insertSorted_Permutation.
  by rewrite app_nil_r.
Qed.

Lemma Array_sort_elem_of (l : list A) (x : A) : x ∈ Array_sort comparefn l <-> x ∈ l.
Proof. by rewrite Array_sort_Permutation. Qed.

(** *** Sortedness, for a comparator that is an order on the elements at hand

    [R] is the order the caller has in mind and [P] what is known of the
    elements.  Moving [x] in front of [y] must be right by [R], and so must
    be leaving it behind. *)
Section Sorted.
Variable R : relation A.
Variable P : A -> Prop.
Hypothesis before : forall x y, P x -> P y -> SortCompare comparefn x y < 0 -> R x y.
Hypothesis behind : forall x y, P x -> P y -> ~ SortCompare comparefn x y < 0 -> R y x.
Hypothesis R_trans : forall x y z, P x -> P y -> P z -> R x y -> R y z -> R x z.

Lemma insertSorted_sorted (x : A) (prefix_rev : list A) :
  P x -> Forall P prefix_rev -> StronglySorted (flip R) prefix_rev ->
  StronglySorted (flip R) (insertSorted comparefn x prefix_rev).
Proof.
  intros Px. induction prefix_rev as [|y rest IH]; intros HP Hs; simpl.
  - repeat constructor.
  - apply Forall_cons in HP as [Py HP].
    apply StronglySorted_inv in Hs as [Hs Hy].
    destruct (Z.ltb_spec (SortCompare comparefn x y) 0) as [Hlt|Hge].
    + constructor; [by apply IH|].
      apply Forall_forall. intros z Hz.
      apply list_elem_of_In, (Permutation_in _ (insertSorted_Permutation x rest)) in Hz.
      destruct Hz as [<-|Hz]; [by apply before|].
      rewrite Forall_forall in Hy. by apply Hy, list_elem_of_In.
    + assert (R y x) as Hyx by (apply behind; [done..|lia]).
      constructor; [by constructor|].
      constructor; [done|].
      rewrite Forall_forall in Hy, HP. apply Forall_forall. intros z Hz.
      unfold flip. apply (R_trans z y x); auto. by apply Hy.
Qed.

Lemma fold_insertSorted_sorted (l prefix_rev : list A) :
  Forall P l -> Forall P prefix_rev -> StronglySorted (flip R) prefix_rev ->
  StronglySorted (flip R) (fold_left (fun acc x => insertSorted comparefn x acc) l prefix_rev).
Proof.
  revert prefix_rev. induction l as [|x l IH]; intros prefix_rev Hl HP Hs; simpl; [done|].
  apply Forall_cons in Hl as [Px Hl].
  apply IH; [done| |by apply insertSorted_sorted].
  rewrite Forall_forall in HP. apply Forall_forall. intros z Hz.
  apply list_elem_of_In, (Permutation_in _ (insertSorted_Permutation x prefix_rev)) in Hz.
  destruct Hz as [<-|Hz]; [done|]. by apply HP, list_elem_of_In.
Qed.

Lemma StronglySorted_flip_rev (l : list A) :
  StronglySorted (flip R) l -> StronglySorted R (reverse l).
Proof.
  induction 1 as [|y l Hs IH Hy]; [constructor|].
  rewrite reverse_cons. apply StronglySorted_app; split_and!; [|done|repeat constructor].
  intros x1 x2 Hx1 Hx2. apply list_elem_of_singleton in Hx2 as ->.
  rewrite Forall_forall in Hy. apply Hy.
  by rewrite elem_of_reverse in Hx1.
Qed.

Lemma Array_sort_StronglySorted (l : list A) :
  Forall P l -> StronglySorted R (Array_sort comparefn l).
Proof.
  intros Hl. apply StronglySorted_flip_rev, fold_insertSorted_sorted; [done|constructor..].
Qed.

End Sorted.

(** *** Stability

    Elements that never compare strictly below one another keep the order
    they came in. *)
Section Stable.
Variable Q : A -> Prop.
Context `{!forall x, Decision (Q x)}.
Hypothesis ties : forall x y, Q x -> Q y -> ~ SortCompare comparefn x y < 0.

Lemma insertSorted_filter (x : A) (prefix_rev : list A) :
  filter Q (insertSorted comparefn x prefix_rev) = filter Q (x :: prefix_rev).
Proof.
  induction prefix_rev as [|y rest IH]; simpl; [done|].
  destruct (Z.ltb_spec (SortCompare comparefn x y) 0) as [Hlt|Hge]; [|done].
  rewrite (filter_cons _ y), IH, !filter_cons.
  destruct (decide (Q y)), (decide (Q x)); try done.
  by destruct (ties x y).
Qed.

Lemma fold_insertSorted_filter (l prefix_rev : list A) :
  filter Q (reverse (fold_left (fun acc x => insertSorted comparefn x acc) l prefix_rev))
  = filter Q (reverse prefix_rev) ++ filter Q l.
Proof.
  revert prefix_rev. induction l as [|x l IH]; intros prefix_rev; simpl.
  - by rewrite app_nil_r.
  - rewrite IH, !filter_reverse, insertSorted_filter, !(filter_cons _ x).
    destruct (decide (Q x)); [|done].
    by rewrite reverse_cons, <- app_assoc.
Qed.

Lemma Array_sort_stable (l : list A) : filter Q (Array_sort comparefn l) = filter Q l.
Proof. unfold Array_sort. by rewrite fold_insertSorted_filter. Qed.

End Stable.

End ArraySortFacts.

Lemma StronglySorted_lookup_lt {A} (R : relation A) (l : list A) (i j : nat) (a b : A) :
  StronglySorted R l -> l !! i = Some a -> l !! j = Some b -> (i < j)%nat -> R a b.
Proof.
  intros Hs. revert i j. induction Hs as [|x l Hs IH Hx]; intros i j Hi Hj Hlt; [done|].
  destruct j as [|j]; [lia|]. destruct i as [|i]; simpl in *.
  - injection Hi as ->. rewrite Forall_forall in Hx.
    apply Hx. by eapply list_elem_of_lookup_2.
  - apply (IH i j); [done..|lia].
Qed.

(** ** Computations in [Host] *)

Lemma bind_Return {A B} (m : Host A) (f : A -> Host B) (a : A) :
  result m = Return a -> bind m f = (calls m ++ calls (f a), result (f a)).
Proof. unfold bind, result, calls. by intros ->. Qed.

Lemma bind_Throw {A B} (m : Host A) (f : A -> Host B) (e : Error) :
  result m = Throw e -> bind m f = (calls m, Throw e).
Proof. unfold bind, result, calls. by intros ->. Qed.

Lemma propagates_ret {A} (c : DashboardClient) (a : A) : propagates c (ret a).
Proof.
  split.
  - intros call e Hin. by apply elem_of_nil in Hin.
  - intros e He. discriminate He.
Qed.

Lemma propagates_callGet (c : DashboardClient) (k : Key) : propagates c (callGet c k).
Proof.
  split.
  - intros call e Hin Hf. apply list_elem_of_singleton in Hin as ->.
    unfold result; simpl in *. destruct (Get c k); congruence.
  - intros e He. exists (GetCall k). split; [apply list_elem_of_singleton; done|].
    unfold result in He; simpl in *. by rewrite He.
Qed.

Lemma propagates_callList (c : DashboardClient) (k : Key) : propagates c (callList c k).
Proof.
  split.
  - intros call e Hin Hf. apply list_elem_of_singleton in Hin as ->.
    unfold result; simpl in *. destruct (List c k); congruence.
  - intros e He. exists (ListCall k). split; [apply list_elem_of_singleton; done|].
    unfold result in He; simpl in *. by rewrite He.
Qed.

Lemma propagates_bind {A B} (c : DashboardClient) (m : Host A) (f : A -> Host B) :
  propagates c m ->
  (forall a, result m = Return a -> propagates c (f a)) ->
  propagates c (bind m f).
Proof.
  intros [Hm1 Hm2] Hf. destruct (result m) as [a|e0] eqn:Hr.
  - rewrite (bind_Return m f a Hr). destruct (Hf a eq_refl) as [Hf1 Hf2].
    unfold result, calls in *; simpl. split.
    + intros call e Hin Hfail. apply elem_of_app in Hin as [Hin|Hin].
      * specialize (Hm1 call e Hin Hfail). congruence.
      * by apply (Hf1 call).
    + intros e He. destruct (Hf2 e He) as (call & Hin & Hfail).
      exists call. split; [apply elem_of_app; by right|done].
  - rewrite (bind_Throw m f e0 Hr). unfold propagates, result, calls in *; simpl. split.
    + intros call e Hin Hfail. specialize (Hm1 call e Hin Hfail). congruence.
    + intros e He. apply Hm2. congruence.
Qed.

(** ** Strings *)

Lemma append_cons (c : ascii) (s t : string) : String c s +:+ t = String c (s +:+ t).
Proof. reflexivity. Qed.

Lemma append_empty (t : string) : "" +:+ t = t.
Proof. reflexivity. Qed.

Lemma append_empty_r (s : string) : s +:+ "" = s.
Proof. induction s as [|c s IH]; [done|]. by rewrite append_cons, IH. Qed.

Lemma startsWith_append (searchString rest : string) :
  startsWith (searchString +:+ rest) searchString = true.
Proof.
  induction searchString as [|c s IH]; [by destruct rest|].
  rewrite append_cons. simpl. by rewrite Ascii.eqb_refl.
Qed.

Lemma startsWith_inv (s searchString : string) :
  startsWith s searchString = true -> exists rest, s = searchString +:+ rest.
Proof.
  revert s. induction searchString as [|c search IH]; intros s H.
  - exists s. reflexivity.
  - destruct s as [|d s]; simpl in H; [done|].
    destruct (Ascii.eqb_spec c d) as [->|]; [|done].
    destruct (IH s H) as [rest ->]. by exists rest.
Qed.

Lemma split_slash_first (s : string) :
  exists pieces, split_slash s = firstSegment s :: pieces.
Proof.
  induction s as [|c s [pieces IH]]; simpl; [eauto|].
  destruct (Ascii.eqb c "/"); [eauto|]. rewrite IH. eauto.
Qed.

Lemma firstSegment_segment (segment : string) (further : list string) :
  hasSlash segment = false ->
  firstSegment (segment +:+ furtherSegments further) = segment.
Proof.
  induction segment as [|c segment IH]; intros Hno.
  - rewrite append_empty. by destruct further.
  - simpl in Hno. apply orb_false_iff in Hno as [Hc Hno].
    rewrite append_cons. simpl. by rewrite Hc, IH.
Qed.

(** ** Generations *)

Lemma unlabelled_generationOf (r : Revision) : unlabelled r -> generationOf r = "-1".
Proof. unfold unlabelled, generationOf. by intros ->. Qed.

Lemma unlabelled_generationNumber (r : Revision) :
  unlabelled r -> generationNumber r = Num (-1).
Proof. unfold generationNumber. by intros ->%unlabelled_generationOf. Qed.

(** On integers the comparator is the difference of the two generations. *)
Lemma SortCompare_generation (a b : Revision) (x y : Z) :
  generationNumber a = Num x -> generationNumber b = Num y ->
  SortCompare compareGeneration a b = x - y.
Proof.
  unfold SortCompare, compareGeneration, generationNumber. by intros -> ->.
Qed.


Lemma isSafeInteger_Num (n : JSNumber) : isSafeInteger n -> exists z, n = Num z.
Proof. destruct n; [done|eauto]. Qed.

Lemma Array_sort_generation (l : list Revision) :
  Forall (fun r => isSafeInteger (generationNumber r)) l ->
  StronglySorted generationLe (Array_sort compareGeneration l).
Proof.
  apply Array_sort_StronglySorted.
  - intros a b [x Hx]%isSafeInteger_Num [y Hy]%isSafeInteger_Num.
    rewrite (SortCompare_generation a b x y Hx Hy). unfold generationLe.
    rewrite Hx, Hy. simpl. lia.
  - intros a b [x Hx]%isSafeInteger_Num [y Hy]%isSafeInteger_Num.
    rewrite (SortCompare_generation a b x y Hx Hy). unfold generationLe.
    rewrite Hx, Hy. simpl. lia.
  - intros a b d [x Hx]%isSafeInteger_Num [y Hy]%isSafeInteger_Num [z Hz]%isSafeInteger_Num.
    unfold generationLe. rewrite Hx, Hy, Hz. simpl. lia.
Qed.

Lemma generationLe_unlabelledFirst (l : list Revision) :
  StronglySorted generationLe l -> unlabelledFirst l.
Proof.
  intros Hs i j a b Hi Hj Ha (z & Hb & Hz).
  apply unlabelled_generationNumber in Ha.
  destruct (Nat.lt_trichotomy i j) as [Hlt|[->|Hgt]]; [done|..].
  - rewrite Hi in Hj. injection Hj as ->. rewrite Ha in Hb. injection Hb as <-. lia.
  - pose proof (StronglySorted_lookup_lt _ _ _ _ _ _ Hs Hj Hi Hgt) as Hle.
    unfold generationLe in Hle. rewrite Ha, Hb in Hle. lia.
Qed.

(** ** The handlers *)

(** *** Routing *)

Lemma contentHandler_detail (this : MyPlugin) (rest : string) :
  contentHandler this (mkContentRequest ("/services/" +:+ rest))
    = serviceDetailHandler this (mkContentRequest ("/services/" +:+ rest)) /\
  contentHandler this (mkContentRequest ("/configurations/" +:+ rest))
    = configurationDetailHandler this (mkContentRequest ("/configurations/" +:+ rest)) /\
  contentHandler this (mkContentRequest ("/routes/" +:+ rest))
    = routeDetailHandler this (mkContentRequest ("/routes/" +:+ rest)).
Proof.
  unfold contentHandler; simpl. rewrite !append_cons, !append_empty.
  split_and!; simpl; by rewrite ?Ascii.eqb_refl; destruct rest.
Qed.

(** C1. [contentHandler] dispatches on [contentPath] alone: the empty path
    gives the overview, the three exact paths give the listings, a path that
    starts with one of the three prefixes gives the matching detail page,
    and any other path gives a response whose title and body are the one
    text ["Not Found - " + contentPath].  The exact paths do not start with
    any of the prefixes, so a listing path cannot fall to a detail handler. *)
Theorem contentHandler_dispatch (this : MyPlugin) (request : ContentRequest) :
  let p := contentPath request in
  (p = "" -> contentHandler this request = knativeOverviewHandler this request) /\
  (p = "/services" -> contentHandler this request = serviceListingHandler this request) /\
  (p = "/configurations" ->
     contentHandler this request = configurationListingHandler this request) /\
  (p = "/routes" -> contentHandler this request = routeListingHandler this request) /\
  (startsWith p "/services/" = true ->
     contentHandler this request = serviceDetailHandler this request) /\
  (startsWith p "/configurations/" = true ->
     contentHandler this request = configurationDetailHandler this request) /\
  (startsWith p "/routes/" = true ->
     contentHandler this request = routeDetailHandler this request) /\
  (p <> "" -> p <> "/services" -> p <> "/configurations" -> p <> "/routes" ->
   startsWith p "/services/" = false -> startsWith p "/configurations/" = false ->
   startsWith p "/routes/" = false ->
     contentHandler this request
       = ret (createContentResponse [TextFactory (Some ("Not Found - " +:+ p))]
                [TextFactory (Some ("Not Found - " +:+ p))] None) /\
     contains ("Not Found - " +:+ p) p) /\
  (forall exact, exact ∈ ["/services"; "/configurations"; "/routes"] ->
     startsWith exact "/services/" = false /\
     startsWith exact "/configurations/" = false /\
     startsWith exact "/routes/" = false).
Proof.
  destruct request as [p]. simpl. split_and!.
  - by intros ->.
  - by intros ->.
  - by intros ->.
  - by intros ->.
  - intros [rest ->]%startsWith_inv. apply contentHandler_detail.
  - intros [rest ->]%startsWith_inv. apply contentHandler_detail.
  - intros [rest ->]%startsWith_inv. apply contentHandler_detail.
  - intros H1 H2 H3 H4 H5 H6 H7. split.
    + unfold contentHandler; simpl. rewrite H5, H6, H7.
      apply String.eqb_neq in H1, H2, H3, H4. by rewrite H1, H2, H3, H4.
    + exists "Not Found - ", "". by rewrite append_empty_r.
  - intros exact Hin. repeat (apply elem_of_cons in Hin as [->|Hin]; [done|]).
    by apply elem_of_nil in Hin.
Qed.

(** *** Navigation, actions, print and tab requests *)

(** C5. [navigationHandler] always returns the same tree: a root titled
    "Knative" with path "knative", and under it exactly three entries, in
    order: Services at "services", Configurations at "configurations" and
    Routes at "routes". *)
Theorem navigationHandler_tree (this : MyPlugin) :
  let nav := navigationHandler this in
  nav_title nav = "Knative" /\
  nav_path nav = "knative" /\
  length (nav_children nav) = 3%nat /\
  map (fun entry => (entry_title entry, entry_path entry)) (nav_children nav)
    = [("Services", "services"); ("Configurations", "configurations"); ("Routes", "routes")].
Proof. by split_and!. Qed.

(** C8. [actionHandler] changes the plugin only for the action
    "action.octant.dev/setNamespace", and then only its [namespace], which
    becomes the one of the payload.  For any other action name, the declared
    "knative/testAction" among them, the plugin is left as it was.  In every
    case the handler returns normally, with no response. *)
Theorem actionHandler_frame (this : MyPlugin) (request : ActionRequest) :
  let this' := fst (actionHandler this request) in
  snd (actionHandler this request) = Return None /\
  (actionName request = "action.octant.dev/setNamespace" ->
     namespace this' = payload_namespace (payload request) /\
     name this' = name this /\ description this' = description this /\
     isModule this' = isModule this /\ dashboardClient this' = dashboardClient this /\
     httpClient this' = httpClient this /\ capabilities this' = capabilities this) /\
  (actionName request <> "action.octant.dev/setNamespace" -> this' = this) /\
  "knative/testAction" ∈ actionNames (capabilities (new_MyPlugin (dashboardClient this) (httpClient this))) /\
  (actionName request = "knative/testAction" -> this' = this).
Proof.
  unfold actionHandler. split_and!.
  - by destruct (String.eqb _ _).
  - by intros ->.
  - intros Hne%String.eqb_neq. by rewrite Hne.
  - simpl. apply elem_of_cons. by left.
  - by intros ->.
Qed.

(** C9. [printHandler] and [tabHandler] throw on every request: neither
    returns a response, and neither changes the plugin. *)
Theorem printHandler_tabHandler_throw (this : MyPlugin) (request : ObjectRequest) :
  (exists e, snd (printHandler this request) = Throw e) /\
  fst (printHandler this request) = this /\
  (exists e, snd (tabHandler this request) = Throw e) /\
  fst (tabHandler this request) = this /\
  (forall response, snd (printHandler this request) <> Return response) /\
  (forall response, snd (tabHandler this request) <> Return response).
Proof. split_and!; simpl; eauto; discriminate. Qed.

(** *** The name of a detail page *)

Lemma detailName_first (rest : string) :
  detailName (mkContentRequest ("/services/" +:+ rest)) = Some (firstSegment rest) /\
  detailName (mkContentRequest ("/configurations/" +:+ rest)) = Some (firstSegment rest) /\
  detailName (mkContentRequest ("/routes/" +:+ rest)) = Some (firstSegment rest).
Proof.
  destruct (split_slash_first rest) as [pieces Hp].
  unfold detailName; simpl. by rewrite ?append_cons, ?append_empty, Hp.
Qed.

Lemma serviceDetail_first_call (this : MyPlugin) (name : option string) :
  head (calls (serviceDetail this name))
    = Some (GetCall (getKey "Service" (namespace this) name)).
Proof.
  unfold serviceDetail, bind, callGet, calls; simpl. by destruct (Get _ _).
Qed.

Lemma configurationDetail_first_call (this : MyPlugin) (name : option string) :
  head (calls (configurationDetail this name))
    = Some (GetCall (getKey "Configuration" (namespace this) name)).
Proof.
  unfold configurationDetail, bind, callGet, calls; simpl. by destruct (Get _ _).
Qed.

Lemma routeDetail_first_call (this : MyPlugin) (name : option string) :
  head (calls (routeDetail this name))
    = Some (GetCall (getKey "Route" (namespace this) name)).
Proof.
  unfold routeDetail, bind, callGet, calls; simpl. by destruct (Get _ _).
Qed.

Lemma head_calls_bind {A B} (m : Host A) (f : A -> Host B) (call : Call) :
  head (calls m) = Some call -> head (calls (bind m f)) = Some call.
Proof.
  unfold bind, calls. destruct m as [[|c0 t] r]; simpl; [done|].
  by destruct r.
Qed.

(** C10. For a path that starts with "/services/", "/configurations/" or
    "/routes/", the name of the detail page is the piece of the path between
    that prefix and the next slash, whatever comes after it.  The object is
    fetched under that name in the plugin's namespace, and the same name and
    namespace are the target of the page's Delete button.  A path that ends
    right after the prefix names the empty string. *)
Theorem detail_name_is_third_segment (this : MyPlugin) (rest : string) :
  let segment := firstSegment rest in
  (detailName (mkContentRequest ("/services/" +:+ rest)) = Some segment /\
   detailPageFor "Service" this segment (serviceDetail this (Some segment))
     (contentHandler this (mkContentRequest ("/services/" +:+ rest)))) /\
  (detailName (mkContentRequest ("/configurations/" +:+ rest)) = Some segment /\
   detailPageFor "Configuration" this segment (configurationDetail this (Some segment))
     (contentHandler this (mkContentRequest ("/configurations/" +:+ rest)))) /\
  (detailName (mkContentRequest ("/routes/" +:+ rest)) = Some segment /\
   detailPageFor "Route" this segment (routeDetail this (Some segment))
     (contentHandler this (mkContentRequest ("/routes/" +:+ rest)))) /\
  (forall name further,
     hasSlash name = false -> rest = name +:+ furtherSegments further -> segment = name) /\
  (rest = "" -> segment = "").
Proof.
  intros segment.
  destruct (detailName_first rest) as (Hs & Hc & Hr).
  destruct (contentHandler_detail this rest) as (Es & Ec & Er).
  fold segment in Hs, Hc, Hr.
  split_and!; try done.
  - rewrite Es. unfold serviceDetailHandler. rewrite Hs. split_and!.
    + apply head_calls_bind, serviceDetail_first_call.
    + intros e He. by rewrite (bind_Throw _ _ e He).
    + intros body Hb. rewrite (bind_Return _ _ body Hb).
      by eexists [_; _], _.
  - rewrite Ec. unfold configurationDetailHandler. rewrite Hc. split_and!.
    + apply head_calls_bind, configurationDetail_first_call.
    + intros e He. by rewrite (bind_Throw _ _ e He).
    + intros body Hb. rewrite (bind_Return _ _ body Hb).
      by eexists [_; _], _.
  - rewrite Er. unfold routeDetailHandler. rewrite Hr. split_and!.
    + apply head_calls_bind, routeDetail_first_call.
    + intros e He. by rewrite (bind_Throw _ _ e He).
    + intros body Hb. rewrite (bind_Return _ _ body Hb).
      by eexists [_; _], _.
  - intros name further Hno ->. by apply firstSegment_segment.
  - by intros ->.
Qed.

(** *** Listings and details *)

(** Unfolds a listing or a detail and goes through the client's answers. *)
Ltac run_client :=
  unfold serviceListing, configurationListing, routeListing,
    serviceDetail, configurationDetail, routeDetail,
    bind, ret, callGet, callList, result, calls;
  simpl;
  repeat match goal with
    | H : ?x = _ |- context [match ?x with _ => _ end] => rewrite H; simpl
    end.

Lemma serviceListing_result (this : MyPlugin) (fm : option FactoryMetadata) (l : list Service) :
  List (dashboardClient this) (listKey "Service" (namespace this)) = Return l ->
  serviceListing this fm
    = ([ListCall (listKey "Service" (namespace this))],
       Return (ServiceListFactory (Array_sort compareName l) fm)).
Proof. intros H. unfold listKey in H. by run_client. Qed.

Lemma configurationListing_result (this : MyPlugin) (fm : option FactoryMetadata)
    (l : list Configuration) :
  List (dashboardClient this) (listKey "Configuration" (namespace this)) = Return l ->
  configurationListing this fm
    = ([ListCall (listKey "Configuration" (namespace this))],
       Return (ConfigurationListFactory (Array_sort compareName l) fm)).
Proof. intros H. unfold listKey in H. by run_client. Qed.

Lemma routeListing_result (this : MyPlugin) (fm : option FactoryMetadata) (l : list Route) :
  List (dashboardClient this) (listKey "Route" (namespace this)) = Return l ->
  routeListing this fm
    = ([ListCall (listKey "Route" (namespace this))],
       Return (RouteListFactory (Array_sort compareName l) fm)).
Proof. intros H. unfold listKey in H. by run_client. Qed.

Lemma serviceDetail_result (this : MyPlugin) (name : option string)
    (service : Service) (l : list Revision) :
  Get (dashboardClient this) (getKey "Service" (namespace this) name) = Return service ->
  List (dashboardClient this)
    (revisionsKey (namespace this) "serving.knative.dev/service" (meta_name (metadata service)))
    = Return l ->
  serviceDetail this name
    = ([GetCall (getKey "Service" (namespace this) name);
        ListCall (revisionsKey (namespace this) "serving.knative.dev/service"
                    (meta_name (metadata service)))],
       Return [ServiceSummaryFactory service (Array_sort compareGeneration l) summaryMetadata;
               yamlEditor service]).
Proof. intros HG HL. unfold getKey, revisionsKey in *. by run_client. Qed.

Lemma configurationDetail_result (this : MyPlugin) (name : option string)
    (configuration : Configuration) (l : list Revision) :
  Get (dashboardClient this) (getKey "Configuration" (namespace this) name)
    = Return configuration ->
  List (dashboardClient this)
    (revisionsKey (namespace this) "serving.knative.dev/configuration"
       (meta_name (metadata configuration)))
    = Return l ->
  configurationDetail this name
    = ([GetCall (getKey "Configuration" (namespace this) name);
        ListCall (revisionsKey (namespace this) "serving.knative.dev/configuration"
                    (meta_name (metadata configuration)))],
       Return [ConfigurationSummaryFactory configuration (Array_sort compareGeneration l)
                 summaryMetadata;
               yamlEditor configuration]).
Proof. intros HG HL. unfold getKey, revisionsKey in *. by run_client. Qed.

(** C4. The Service page shows exactly the revisions the client lists under
    the selector "serving.knative.dev/service" set to the name of the
    service it fetched, and the Configuration page those listed under
    "serving.knative.dev/configuration" set to the name of the configuration;
    each makes these two calls and no other.  The Route page makes one call,
    the [Get] of the route, so it lists no revisions. *)
Theorem detail_revisions_fetched (this : MyPlugin) (name : option string) :
  let c := dashboardClient this in
  let ns := namespace this in
  (forall service l,
     Get c (getKey "Service" ns name) = Return service ->
     List c (revisionsKey ns "serving.knative.dev/service" (meta_name (metadata service)))
       = Return l ->
     calls (serviceDetail this name)
       = [GetCall (getKey "Service" ns name);
          ListCall (revisionsKey ns "serving.knative.dev/service"
                      (meta_name (metadata service)))] /\
     exists revisions,
       result (serviceDetail this name)
         = Return [ServiceSummaryFactory service revisions summaryMetadata;
                   yamlEditor service] /\
       revisions ≡ₚ l) /\
  (forall configuration l,
     Get c (getKey "Configuration" ns name) = Return configuration ->
     List c (revisionsKey ns "serving.knative.dev/configuration"
               (meta_name (metadata configuration)))
       = Return l ->
     calls (configurationDetail this name)
       = [GetCall (getKey "Configuration" ns name);
          ListCall (revisionsKey ns "serving.knative.dev/configuration"
                      (meta_name (metadata configuration)))] /\
     exists revisions,
       result (configurationDetail this name)
         = Return [ConfigurationSummaryFactory configuration revisions summaryMetadata;
                   yamlEditor configuration] /\
       revisions ≡ₚ l) /\
  calls (routeDetail this name) = [GetCall (getKey "Route" ns name)] /\
  (forall route,
     Get c (getKey "Route" ns name) = Return route ->
     result (routeDetail this name)
       = Return [RouteSummaryFactory route summaryMetadata; yamlEditor route]).
Proof.
  simpl. split_and!.
  - intros service l HG HL. rewrite (serviceDetail_result _ _ _ _ HG HL).
    split; [done|]. eexists. split; [done|]. apply Array_sort_Permutation.
  - intros configuration l HG HL. rewrite (configurationDetail_result _ _ _ _ HG HL).
    split; [done|]. eexists. split; [done|]. apply Array_sort_Permutation.
  - run_client. by destruct (Get _ _).
  - intros route HG. unfold getKey in HG. by run_client.
Qed.

(** C2, as the code has it.  When the generation of every listed revision is
    an integer a number holds exactly (the label parses as one, or is
    missing or empty and stands for -1), the revisions of the Service page
    and of the Configuration page are those listed, in ascending order of
    generation, so that the revisions without the label come before all
    revisions of non-negative generation.  A revision without the label has
    the generation parsed from "-1" in any case. *)
Theorem detail_revisions_sorted (this : MyPlugin) (name : option string)
    (o : KObject) (l : list Revision) :
  Forall (fun r => isSafeInteger (generationNumber r)) l ->
  let c := dashboardClient this in
  let ns := namespace this in
  (Get c (getKey "Service" ns name) = Return o ->
   List c (revisionsKey ns "serving.knative.dev/service" (meta_name (metadata o))) = Return l ->
   exists revisions,
     result (serviceDetail this name)
       = Return [ServiceSummaryFactory o revisions summaryMetadata; yamlEditor o] /\
     revisions ≡ₚ l /\ StronglySorted generationLe revisions /\ unlabelledFirst revisions) /\
  (Get c (getKey "Configuration" ns name) = Return o ->
   List c (revisionsKey ns "serving.knative.dev/configuration" (meta_name (metadata o)))
     = Return l ->
   exists revisions,
     result (configurationDetail this name)
       = Return [ConfigurationSummaryFactory o revisions summaryMetadata; yamlEditor o] /\
     revisions ≡ₚ l /\ StronglySorted generationLe revisions /\ unlabelledFirst revisions) /\
  (forall r, unlabelled r -> generationNumber r = parseInt "-1").
Proof.
  intros Hl c ns.
  pose proof (Array_sort_generation l Hl) as Hs.
  split_and!; [intros HG HL..|apply unlabelled_generationNumber].
  - rewrite (serviceDetail_result _ _ _ _ HG HL). eexists. split; [done|].
    split_and!; [apply Array_sort_Permutation|done|by apply generationLe_unlabelledFirst].
  - rewrite (configurationDetail_result _ _ _ _ HG HL). eexists. split; [done|].
    split_and!; [apply Array_sort_Permutation|done|by apply generationLe_unlabelledFirst].
Qed.

Lemma Array_sort_name (l : list KObject) :
  consistentComparator localeCompare ->
  StronglySorted (nameLe localeCompare) (Array_sort compareName l).
Proof.
  intros [Hanti Htrans].
  apply (Array_sort_StronglySorted compareName (nameLe localeCompare) (fun _ => True)).
  - unfold SortCompare, compareName, nameLe. intros a b _ _. lia.
  - unfold SortCompare, compareName, nameLe. intros a b _ _ H. apply Hanti. lia.
  - unfold nameLe. intros a b d _ _ _. apply Htrans.
  - by apply Forall_forall.
Qed.

(** C3. Each of the three listings returns the objects the client listed,
    all of them and no other, in ascending order of [metadata.name] under
    the collation of [localeCompare], a missing name counting as the empty
    string. *)
Theorem listings_sorted_by_name (this : MyPlugin) (fm : option FactoryMetadata)
    (l : list KObject) :
  consistentComparator localeCompare ->
  let c := dashboardClient this in
  let ns := namespace this in
  (List c (listKey "Service" ns) = Return l ->
   exists services,
     result (serviceListing this fm) = Return (ServiceListFactory services fm) /\
     services ≡ₚ l /\ StronglySorted (nameLe localeCompare) services) /\
  (List c (listKey "Configuration" ns) = Return l ->
   exists configurations,
     result (configurationListing this fm)
       = Return (ConfigurationListFactory configurations fm) /\
     configurations ≡ₚ l /\ StronglySorted (nameLe localeCompare) configurations) /\
  (List c (listKey "Route" ns) = Return l ->
   exists routes,
     result (routeListing this fm) = Return (RouteListFactory routes fm) /\
     routes ≡ₚ l /\ StronglySorted (nameLe localeCompare) routes).
Proof.
  intros Hcmp c ns.
  pose proof (Array_sort_name l Hcmp) as Hs.
  pose proof (Array_sort_Permutation compareName l) as Hp.
  split_and!; intros HL.
  - rewrite (serviceListing_result _ _ _ HL). by eexists.
  - rewrite (configurationListing_result _ _ _ HL). by eexists.
  - rewrite (routeListing_result _ _ _ HL). by eexists.
Qed.

(** *** Determinism *)


Section SameAnswers.
Variables this1 this2 : MyPlugin.
Hypothesis same_namespace : namespace this1 = namespace this2.
Hypothesis same_Get :
  forall k, Get (dashboardClient this1) k = Get (dashboardClient this2) k.
Hypothesis same_List :
  forall k, List (dashboardClient this1) k = List (dashboardClient this2) k.











End SameAnswers.

(** *** The one order of revisions with integer generations *)







(** *** Failures and pass-through *)

Ltac propagation :=
  repeat first
    [ apply propagates_ret
    | apply propagates_callGet
    | apply propagates_callList
    | apply propagates_bind; [|intros ? _] ].

Lemma contentHandler_propagates (this : MyPlugin) (request : ContentRequest) :
  propagates (dashboardClient this) (contentHandler this request).
Proof.
  unfold contentHandler, knativeOverviewHandler,
    serviceListingHandler, configurationListingHandler, routeListingHandler,
    serviceDetailHandler, configurationDetailHandler, routeDetailHandler,
    serviceListing, configurationListing, routeListing,
    serviceDetail, configurationDetail, routeDetail.
  repeat (destruct (_ : bool); [propagation|]). propagation.
Qed.

(** Goes through the answers of the client one call at a time. *)
Ltac answers :=
  unfold passedThrough, bind, ret, callGet, callList, result, calls; simpl;
  repeat match goal with
    | |- context [match Get ?c ?k with _ => _ end] => destruct (Get c k) eqn:?; simpl
    | |- context [match List ?c ?k with _ => _ end] => destruct (List c k) eqn:?; simpl
    end;
  intros response Hresponse; simplify_eq/=;
  rewrite ?app_nil_r, ?Array_sort_Permutation; try reflexivity.

Lemma contentHandler_passedThrough (this : MyPlugin) (request : ContentRequest) :
  passedThrough (dashboardClient this) (contentHandler this request).
Proof.
  unfold contentHandler, knativeOverviewHandler,
    serviceListingHandler, configurationListingHandler, routeListingHandler,
    serviceDetailHandler, configurationDetailHandler, routeDetailHandler,
    serviceListing, configurationListing, routeListing,
    serviceDetail, configurationDetail, routeDetail.
  repeat (destruct (_ : bool); [answers|]). answers.
Qed.

(** C7. The content handlers have no failure handling of their own.  If a
    call to [Get] or [List] made for a request fails, the handler ends with
    that very exception, and a handler never throws but for such a call.
    When the calls succeed, the objects shown are the objects answered:
    none is dropped and none is added. *)
Theorem contentHandler_passes_through (this : MyPlugin) (request : ContentRequest) :
  let c := dashboardClient this in
  let m := contentHandler this request in
  (forall call e, call ∈ calls m -> failure c call = Some e -> result m = Throw e) /\
  (forall e, result m = Throw e -> exists call, call ∈ calls m /\ failure c call = Some e) /\
  (forall response, result m = Return response ->
     flat_map objectsOf (resp_body response) ≡ₚ flat_map (answerObjects c) (calls m)).
Proof.
  destruct (contentHandler_propagates this request) as [H1 H2].
  pose proof (contentHandler_passedThrough this request) as H3.
  by split_and!.
Qed.

(** ** Beyond the pages: the plugin over its life *)

Lemma result_bind_Return {A B} (m : Host A) (f : A -> Host B) (b : B) :
  result (bind m f) = Return b ->
  exists a, result m = Return a /\ result (f a) = Return b.
Proof.
  unfold bind, result. destruct (snd m) as [a|e]; simpl; [eauto|discriminate].
Qed.

Lemma Forall_calls_bind {A B} (P : Call -> Prop) (m : Host A) (f : A -> Host B) :
  Forall P (calls m) -> (forall a, Forall P (calls (f a))) ->
  Forall P (calls (bind m f)).
Proof.
  intros Hm Hf. unfold bind, calls in *. destruct (snd m); simpl; [|done].
  apply Forall_app. split; [done|apply Hf].
Qed.

Ltac serving_calls :=
  repeat first
    [ apply Forall_nil_2
    | apply Forall_calls_bind; [|intros ?]
    | apply Forall_cons; split;
      [ unfold servingKey; simpl; split_and!; [done..|set_solver] | ] ].

Lemma contentHandler_servingKey (this : MyPlugin) (request : ContentRequest) :
  Forall (fun call => servingKey (namespace this) (callKey call))
    (calls (contentHandler this request)).
Proof.
  unfold contentHandler, knativeOverviewHandler,
    serviceListingHandler, configurationListingHandler, routeListingHandler,
    serviceDetailHandler, configurationDetailHandler, routeDetailHandler,
    serviceListing, configurationListing, routeListing,
    serviceDetail, configurationDetail, routeDetail, callGet, callList, ret.
  repeat (destruct (_ : bool); [serving_calls|]). serving_calls.
Qed.

Lemma contentHandler_buttonNamespaces (this : MyPlugin) (request : ContentRequest)
    (response : ContentResponse) :
  result (contentHandler this request) = Return response ->
  Forall (fun ns => ns = namespace this) (buttonNamespaces response).
Proof.
  unfold contentHandler, knativeOverviewHandler,
    serviceListingHandler, configurationListingHandler, routeListingHandler,
    serviceDetailHandler, configurationDetailHandler, routeDetailHandler.
  repeat (destruct (_ : bool);
          [intros H;
           repeat (apply result_bind_Return in H as (? & _ & H));
           injection H as <-; by repeat constructor|]).
  intros H. injection H as <-. constructor.
Qed.

Lemma actionHandler_fields (this : MyPlugin) (request : ActionRequest) :
  let this' := fst (actionHandler this request) in
  namespace this' = lastNamespace (namespace this) [request] /\
  name this' = name this /\ description this' = description this /\
  isModule this' = isModule this /\ dashboardClient this' = dashboardClient this /\
  httpClient this' = httpClient this /\ capabilities this' = capabilities this.
Proof.
  unfold actionHandler, lastNamespace; simpl.
  by destruct (String.eqb _ _).
Qed.

Lemma runActions_fields (requests : list ActionRequest) (this : MyPlugin) :
  let this' := runActions this requests in
  namespace this' = lastNamespace (namespace this) requests /\
  name this' = name this /\ description this' = description this /\
  isModule this' = isModule this /\ dashboardClient this' = dashboardClient this /\
  httpClient this' = httpClient this /\ capabilities this' = capabilities this.
Proof.
  revert this. induction requests as [|request requests IH]; intros this; [done|].
  destruct (actionHandler_fields this request) as (Hns & Hn & Hd & Hm & Hc & Hh & Hcap).
  destruct (IH (fst (actionHandler this request))) as (Ins & In & Id & Im & Ic & Ih & Icap).
  simpl in *. unfold runActions, lastNamespace in *; simpl.
  rewrite Ins, In, Id, Im, Ic, Ih, Icap, Hns, Hn, Hd, Hm, Hc, Hh, Hcap. done.
Qed.

Lemma runActions_other_actions (requests : list ActionRequest) (this : MyPlugin) :
  Forall (fun request => actionName request <> "action.octant.dev/setNamespace") requests ->
  runActions this requests = this.
Proof.
  revert this. induction requests as [|request requests IH]; intros this Hno; [done|].
  apply Forall_cons in Hno as [Hne Hno]. unfold runActions in *; simpl.
  unfold actionHandler at 2. apply String.eqb_neq in Hne. rewrite Hne. simpl.
  by apply IH.
Qed.

(** X1. From its construction on, whatever actions the plugin is sent, it
    keeps the client it was given, its name, its capabilities and its being
    a module; its namespace is the one the last "setNamespace" action asked
    for, and "default" when there was none. *)
Theorem plugin_lifetime (c : DashboardClient) (h : HTTPClient)
    (requests : list ActionRequest) :
  let this := runActions (new_MyPlugin c h) requests in
  namespace this = lastNamespace "default" requests /\
  dashboardClient this = c /\ httpClient this = h /\
  name this = "knative" /\ isModule this = true /\
  capabilities this = capabilities (new_MyPlugin c h) /\
  (Forall (fun request => actionName request <> "action.octant.dev/setNamespace") requests ->
   this = new_MyPlugin c h).
Proof.
  destruct (runActions_fields requests (new_MyPlugin c h)) as (Hns & Hn & Hd & Hm & Hc & Hh & Hcap).
  simpl. split_and!; try done. apply runActions_other_actions.
Qed.

(** X2. Whatever the request, every call a content page makes asks for a
    Service, Configuration, Route or Revision of "serving.knative.dev/v1" in
    the plugin's current namespace, and every button of the page returned
    acts in that namespace: a page never reaches into another namespace. *)
Theorem contentHandler_stays_in_namespace (this : MyPlugin) (request : ContentRequest) :
  Forall (fun call => servingKey (namespace this) (callKey call))
    (calls (contentHandler this request)) /\
  (forall response, result (contentHandler this request) = Return response ->
     Forall (fun ns => ns = namespace this) (buttonNamespaces response)).
Proof.
  split; [apply contentHandler_servingKey|apply contentHandler_buttonNamespaces].
Qed.

(** X3. A change of namespace takes effect on the pages that follow: after
    any series of actions, the calls of the next content request are all
    made in the namespace of the last "setNamespace" action ("default" when
    there was none), through the client the plugin was constructed with. *)
Theorem namespace_switch_takes_effect (c : DashboardClient) (h : HTTPClient)
    (requests : list ActionRequest) (request : ContentRequest) :
  let this := runActions (new_MyPlugin c h) requests in
  Forall (fun call => key_namespace (callKey call) = lastNamespace "default" requests)
    (calls (contentHandler this request)) /\
  (forall call e, call ∈ calls (contentHandler this request) ->
     failure c call = Some e -> result (contentHandler this request) = Throw e).
Proof.
  intros this.
  destruct (runActions_fields requests (new_MyPlugin c h)) as (Hns & _ & _ & _ & Hc & _).
  fold this in Hns, Hc. simpl in Hns, Hc. split.
  - rewrite <- Hns. eapply Forall_impl; [apply contentHandler_servingKey|].
    by intros call [? _].
  - rewrite <- Hc. apply contentHandler_propagates.
Qed.

(** X4. The plugin changes only on actions it declared: if an action leaves
    the plugin different from what it was, its name is among the
    [actionNames] of the plugin's capabilities. *)
Theorem actionHandler_changes_only_declared (c : DashboardClient) (h : HTTPClient)
    (requests : list ActionRequest) (request : ActionRequest) :
  let this := runActions (new_MyPlugin c h) requests in
  fst (actionHandler this request) <> this ->
  actionName request ∈ actionNames (capabilities this).
Proof.
  intros this Hchanged.
  destruct (runActions_fields requests (new_MyPlugin c h)) as (_ & _ & _ & _ & _ & _ & Hcap).
  fold this in Hcap. rewrite Hcap. simpl.
  unfold actionHandler in Hchanged.
  destruct (String.eqb_spec (actionName request) "action.octant.dev/setNamespace") as [->|];
    [set_solver|done].
Qed.

(** ** Beyond the claims: pages and their failures *)

Ltac by_answers :=
  unfold bind, ret, callGet, callList, result, calls; simpl;
  repeat match goal with
    | H : ?x = _ |- context [?x] => rewrite H; simpl
    end.

(** X5. The overview asks for the services, then the configurations, then
    the routes, and stops at the first list that fails: it never makes
    another kind of call, it returns a page exactly when all three lists
    are answered, and the page then holds the three lists in that order,
    each with the objects answered. *)
Theorem knativeOverviewHandler_all_or_nothing (this : MyPlugin) (request : ContentRequest) :
  let c := dashboardClient this in
  let ns := namespace this in
  let m := knativeOverviewHandler this request in
  calls m `prefix_of`
    [ListCall (listKey "Service" ns); ListCall (listKey "Configuration" ns);
     ListCall (listKey "Route" ns)] /\
  (forall e, List c (listKey "Service" ns) = Throw e ->
     m = ([ListCall (listKey "Service" ns)], Throw e)) /\
  (forall response, result m = Return response ->
     exists services configurations routes,
       List c (listKey "Service" ns) = Return services /\
       List c (listKey "Configuration" ns) = Return configurations /\
       List c (listKey "Route" ns) = Return routes) /\
  (forall services configurations routes,
     List c (listKey "Service" ns) = Return services ->
     List c (listKey "Configuration" ns) = Return configurations ->
     List c (listKey "Route" ns) = Return routes ->
     exists services' configurations' routes' fm,
       services' ≡ₚ services /\ configurations' ≡ₚ configurations /\ routes' ≡ₚ routes /\
       result m = Return
         (createContentResponse [TextFactory (Some "Knative")]
            [ListFactory
               [toComponent (ServiceListFactory services' (titled "Services"));
                toComponent (ConfigurationListFactory configurations' (titled "Configurations"));
                toComponent (RouteListFactory routes' (titled "Routes"))]
               fm]
            None)).
Proof.
  unfold knativeOverviewHandler, serviceListing, configurationListing, routeListing, listKey.
  simpl. split_and!.
  - unfold bind, ret, callList, calls; simpl.
    destruct (List _ _); simpl; [|by eexists].
    destruct (List _ _); simpl; [|by eexists].
    destruct (List _ _); simpl; by exists [].
  - intros e He. by by_answers.
  - intros response. unfold bind, ret, callList, result; simpl.
    destruct (List _ _); simpl; [|done].
    destruct (List _ _); simpl; [|done].
    destruct (List _ _); simpl; [|done]. intros _. by eexists _, _, _.
  - intros services configurations routes Hs Hc Hr. by_answers.
    eexists _, _, _, _. split_and!; [apply Array_sort_Permutation..|done].
Qed.

Lemma serviceListingHandler_page (this : MyPlugin) (request : ContentRequest) :
  listingPageOf (dashboardClient this) (listKey "Service" (namespace this)) "Services"
    ServiceListFactory (serviceListingHandler this request).
Proof.
  unfold listingPageOf, serviceListingHandler, serviceListing, listKey. split_and!.
  - unfold bind, ret, callList, calls; simpl. by destruct (List _ _).
  - intros e He. by by_answers.
  - intros l Hl. by_answers. eexists _, _. split; [apply Array_sort_Permutation|done].
Qed.

Lemma configurationListingHandler_page (this : MyPlugin) (request : ContentRequest) :
  listingPageOf (dashboardClient this) (listKey "Configuration" (namespace this))
    "Configurations" ConfigurationListFactory (configurationListingHandler this request).
Proof.
  unfold listingPageOf, configurationListingHandler, configurationListing, listKey.
  split_and!.
  - unfold bind, ret, callList, calls; simpl. by destruct (List _ _).
  - intros e He. by by_answers.
  - intros l Hl. by_answers. eexists _, _. split; [apply Array_sort_Permutation|done].
Qed.

Lemma routeListingHandler_page (this : MyPlugin) (request : ContentRequest) :
  listingPageOf (dashboardClient this) (listKey "Route" (namespace this)) "Routes"
    RouteListFactory (routeListingHandler this request).
Proof.
  unfold listingPageOf, routeListingHandler, routeListing, listKey. split_and!.
  - unfold bind, ret, callList, calls; simpl. by destruct (List _ _).
  - intros e He. by by_answers.
  - intros l Hl. by_answers. eexists _, _. split; [apply Array_sort_Permutation|done].
Qed.

(** X6. Each listing page makes one call, the [List] of its kind in the
    plugin's namespace, whether it succeeds or not.  A failure of that call
    is the page's; otherwise the page has the breadcrumbs Knative and the
    plural of the kind, no button, and one list with the objects
    answered. *)
Theorem listing_pages (this : MyPlugin) :
  let c := dashboardClient this in
  let ns := namespace this in
  listingPageOf c (listKey "Service" ns) "Services" ServiceListFactory
    (contentHandler this (mkContentRequest "/services")) /\
  listingPageOf c (listKey "Configuration" ns) "Configurations" ConfigurationListFactory
    (contentHandler this (mkContentRequest "/configurations")) /\
  listingPageOf c (listKey "Route" ns) "Routes" RouteListFactory
    (contentHandler this (mkContentRequest "/routes")).
Proof.
  split_and!;
    [apply serviceListingHandler_page
    |apply configurationListingHandler_page
    |apply routeListingHandler_page].
Qed.

Lemma detailPath_inv (p : string) :
  detailPath p = true ->
  exists rest, p = "/services/" +:+ rest \/ p = "/configurations/" +:+ rest \/
               p = "/routes/" +:+ rest.
Proof.
  unfold detailPath. intros H.
  apply orb_true_iff in H as [H|H]; [apply orb_true_iff in H as [H|H]|];
    apply startsWith_inv in H as [rest ->]; eauto.
Qed.

Lemma contentHandler_not_detail (this : MyPlugin) (request : ContentRequest)
    (response : ContentResponse) :
  detailPath (contentPath request) = false ->
  result (contentHandler this request) = Return response ->
  resp_buttonGroup response = None.
Proof.
  unfold detailPath, contentHandler. intros Hno.
  apply orb_false_iff in Hno as [Hno Hr]. apply orb_false_iff in Hno as [Hs Hc].
  rewrite Hs, Hc, Hr.
  unfold knativeOverviewHandler, serviceListingHandler, configurationListingHandler,
    routeListingHandler.
  repeat (destruct (String.eqb _ _);
          [intros H; repeat (apply result_bind_Return in H as (? & _ & H));
           by injection H as <-|]).
  intros H. by injection H as <-.
Qed.

Lemma contentHandler_detail_button (this : MyPlugin) (request : ContentRequest)
    (response : ContentResponse) :
  detailPath (contentPath request) = true ->
  result (contentHandler this request) = Return response ->
  exists kind name confirmation,
    resp_buttonGroup response
      = Some (ButtonGroupFactory
                [mkButton "Delete"
                   (mkPayload "action.octant.dev/deleteObject" "serving.knative.dev/v1"
                      kind (namespace this) name)
                   confirmation]).
Proof.
  destruct request as [p]. simpl. intros [rest Hp]%detailPath_inv.
  destruct (contentHandler_detail this rest) as (Es & Ec & Er).
  destruct Hp as [->|[->| ->]]; [rewrite Es|rewrite Ec|rewrite Er];
    unfold serviceDetailHandler, configurationDetailHandler, routeDetailHandler;
    intros H; apply result_bind_Return in H as (? & _ & H);
    injection H as <-; simpl; eauto.
Qed.

(** X7. A page carries a button exactly when it is a detail page: for a
    path under "/services/", "/configurations/" or "/routes/" the page
    returned has one button, Delete, sending
    "action.octant.dev/deleteObject" in the plugin's namespace; every other
    page returned has none. *)
Theorem delete_button_only_on_detail (this : MyPlugin) (request : ContentRequest)
    (response : ContentResponse) :
  result (contentHandler this request) = Return response ->
  (detailPath (contentPath request) = false -> resp_buttonGroup response = None) /\
  (detailPath (contentPath request) = true ->
     exists kind name confirmation,
       resp_buttonGroup response
         = Some (ButtonGroupFactory
                   [mkButton "Delete"
                      (mkPayload "action.octant.dev/deleteObject" "serving.knative.dev/v1"
                         kind (namespace this) name)
                      confirmation])).
Proof.
  intros H. split; intros Hd;
    [by apply (contentHandler_not_detail this request)
    |by apply (contentHandler_detail_button this request)].
Qed.

Lemma contentHandler_notFound (this : MyPlugin) (p : string) :
  p <> "" -> p <> "/services" -> p <> "/configurations" -> p <> "/routes" ->
  startsWith p "/services/" = false -> startsWith p "/configurations/" = false ->
  startsWith p "/routes/" = false ->
  contentHandler this (mkContentRequest p)
    = ([], Return (createContentResponse [TextFactory (Some ("Not Found - " +:+ p))]
                     [TextFactory (Some ("Not Found - " +:+ p))] None)).
Proof.
  intros H1 H2 H3 H4 H5 H6 H7. unfold contentHandler; simpl. rewrite H5, H6, H7.
  apply String.eqb_neq in H1, H2, H3, H4. by rewrite H1, H2, H3, H4.
Qed.

Lemma startsWith_false (s searchString : string) :
  (forall rest, s <> searchString +:+ rest) -> startsWith s searchString = false.
Proof.
  intros H. destruct (startsWith s searchString) eqn:E; [|done].
  apply startsWith_inv in E as [rest ->]. by destruct (H rest).
Qed.

(** X8. The listing paths are matched whole: a listing path followed by
    anything but a slash is not a page.  It is answered with Not Found and
    no call is made. *)
Theorem listing_path_extension_not_found (this : MyPlugin) (suffix : string) :
  suffix <> "" -> startsWith suffix "/" = false ->
  Forall
    (fun p =>
       contentHandler this (mkContentRequest (p +:+ suffix))
         = ([], Return (createContentResponse
                          [TextFactory (Some ("Not Found - " +:+ p +:+ suffix))]
                          [TextFactory (Some ("Not Found - " +:+ p +:+ suffix))] None)))
    ["/services"; "/configurations"; "/routes"].
Proof.
  intros Hne Hslash. destruct suffix as [|c suffix]; [done|].
  assert (c <> "/"%char) as Hc.
  { intros ->. by destruct suffix. }
  repeat (apply Forall_cons; split); [..|apply Forall_nil_2];
    apply contentHandler_notFound;
    try (apply startsWith_false; intros rest);
    rewrite ?append_cons, ?append_empty; intros Heq; simplify_eq.
Qed.

(** X9. A detail page fetches the object first and gives up at once when
    that fails: the revisions are then not asked for.  When the object is
    fetched and the list of revisions fails, that failure is the page's. *)
Theorem detail_failure_stops (this : MyPlugin) (name : option string) (e : Error) :
  let c := dashboardClient this in
  let ns := namespace this in
  (Get c (getKey "Service" ns name) = Throw e ->
   serviceDetail this name = ([GetCall (getKey "Service" ns name)], Throw e)) /\
  (Get c (getKey "Configuration" ns name) = Throw e ->
   configurationDetail this name = ([GetCall (getKey "Configuration" ns name)], Throw e)) /\
  (Get c (getKey "Route" ns name) = Throw e ->
   routeDetail this name = ([GetCall (getKey "Route" ns name)], Throw e)) /\
  (forall service,
     Get c (getKey "Service" ns name) = Return service ->
     List c (revisionsKey ns "serving.knative.dev/service" (meta_name (metadata service)))
       = Throw e ->
     serviceDetail this name
       = ([GetCall (getKey "Service" ns name);
           ListCall (revisionsKey ns "serving.knative.dev/service"
                       (meta_name (metadata service)))],
          Throw e)) /\
  (forall configuration,
     Get c (getKey "Configuration" ns name) = Return configuration ->
     List c (revisionsKey ns "serving.knative.dev/configuration"
               (meta_name (metadata configuration)))
       = Throw e ->
     configurationDetail this name
       = ([GetCall (getKey "Configuration" ns name);
           ListCall (revisionsKey ns "serving.knative.dev/configuration"
                       (meta_name (metadata configuration)))],
          Throw e)).
Proof.
  unfold serviceDetail, configurationDetail, routeDetail, getKey, revisionsKey. simpl.
  split_and!; intros; by by_answers.
Qed.

(** ** Beyond the claims: orders the sort leaves alone *)

Section ArraySortFixed.
Context {A : Type}.
Variable comparefn : A -> A -> JSNumber.

(** [b] does not sort strictly before [a]. *)
Let notBefore (a b : A) : Prop := ~ SortCompare comparefn b a < 0.

Lemma Sorted_app_r (R : relation A) (l1 l2 : list A) : Sorted R (l1 ++ l2) -> Sorted R l2.
Proof.
  induction l1 as [|x l1 IH]; simpl; [done|].
  intros H. apply IH. by apply Sorted_inv in H as [H _].
Qed.

Lemma fold_insertSorted_fixed (l prefix_rev : list A) :
  Sorted notBefore (reverse prefix_rev ++ l) ->
  fold_left (fun acc x => insertSorted comparefn x acc) l prefix_rev
    = reverse l ++ prefix_rev.
Proof.
  revert prefix_rev. induction l as [|x l IH]; intros prefix_rev Hs; simpl; [done|].
  assert (insertSorted comparefn x prefix_rev = x :: prefix_rev) as ->.
  { destruct prefix_rev as [|y rest]; simpl; [done|].
    rewrite reverse_cons, <- app_assoc in Hs. apply Sorted_app_r in Hs.
    simpl in Hs. apply Sorted_inv in Hs as [_ Hy]. apply HdRel_inv in Hy.
    unfold notBefore in Hy.
    by destruct (Z.ltb_spec (SortCompare comparefn x y) 0). }
  rewrite IH.
  - by rewrite reverse_cons, <- app_assoc.
  - by rewrite reverse_cons, <- app_assoc.
Qed.

(** A list in which no element sorts strictly before its predecessor is
    left as it is. *)
Lemma Array_sort_fixed (l : list A) : Sorted notBefore l -> Array_sort comparefn l = l.
Proof.
  intros Hs. unfold Array_sort. rewrite fold_insertSorted_fixed; [|done].
  by rewrite app_nil_r, reverse_involutive.
Qed.

End ArraySortFixed.

Lemma Sorted_weaken {A} (R1 R2 : relation A) (l : list A) :
  (forall a b, R1 a b -> R2 a b) -> Sorted R1 l -> Sorted R2 l.
Proof.
  intros H. induction 1 as [|x l Hs IH Hx]; constructor; [done|].
  destruct Hx; constructor. by apply H.
Qed.

Lemma generationLe_notBefore (l : list Revision) :
  Sorted generationLe l ->
  Sorted (fun a b => ~ SortCompare compareGeneration b a < 0) l.
Proof.
  apply Sorted_weaken. intros a b. unfold generationLe, SortCompare, compareGeneration, generationNumber.
  destruct (parseInt (generationOf a)), (parseInt (generationOf b)); simpl; lia.
Qed.

(** X10. Objects that arrive in order are shown in the order they arrived.
    When the client lists the revisions of a service or of a configuration
    in ascending order of generation, the page shows that very list; when
    it lists services, configurations or routes so that no name sorts
    before the name in front of it, the listing is that very list. *)
Theorem sorted_answers_kept (this : MyPlugin) (name : option string)
    (fm : option FactoryMetadata) (o : KObject) (l : list KObject) :
  let c := dashboardClient this in
  let ns := namespace this in
  (Sorted generationLe l ->
   (Get c (getKey "Service" ns name) = Return o ->
    List c (revisionsKey ns "serving.knative.dev/service" (meta_name (metadata o)))
      = Return l ->
    result (serviceDetail this name)
      = Return [ServiceSummaryFactory o l summaryMetadata; yamlEditor o]) /\
   (Get c (getKey "Configuration" ns name) = Return o ->
    List c (revisionsKey ns "serving.knative.dev/configuration" (meta_name (metadata o)))
      = Return l ->
    result (configurationDetail this name)
      = Return [ConfigurationSummaryFactory o l summaryMetadata; yamlEditor o])) /\
  (Sorted (fun a b => 0 <= localeCompare (orEmpty (meta_name (metadata b)))
                                        (orEmpty (meta_name (metadata a)))) l ->
   (List c (listKey "Service" ns) = Return l ->
    result (serviceListing this fm) = Return (ServiceListFactory l fm)) /\
   (List c (listKey "Configuration" ns) = Return l ->
    result (configurationListing this fm) = Return (ConfigurationListFactory l fm)) /\
   (List c (listKey "Route" ns) = Return l ->
    result (routeListing this fm) = Return (RouteListFactory l fm))).
Proof.
  simpl. split.
  - intros Hs%generationLe_notBefore%Array_sort_fixed. split; intros HG HL.
    + rewrite (serviceDetail_result _ _ _ _ HG HL). simpl. by rewrite Hs.
    + rewrite (configurationDetail_result _ _ _ _ HG HL). simpl. by rewrite Hs.
  - intros Hs.
    assert (Array_sort compareName l = l) as Hfix.
    { apply Array_sort_fixed. revert Hs. apply Sorted_weaken.
      intros a b. unfold SortCompare, compareName. lia. }
    split_and!; intros HL.
    + rewrite (serviceListing_result _ _ _ HL). simpl. by rewrite Hfix.
    + rewrite (configurationListing_result _ _ _ HL). simpl. by rewrite Hfix.
    + rewrite (routeListing_result _ _ _ HL). simpl. by rewrite Hfix.
Qed.

(** X11. Objects the collation does not tell apart keep the client's order:
    provided no name sorts before itself, the objects of a listing that
    share a name, a missing name counting as the empty one, are shown in
    the order the client listed them. *)
Theorem listing_keeps_order_of_equal_names (this : MyPlugin)
    (fm : option FactoryMetadata) (l : list KObject) :
  (forall s, 0 <= localeCompare s s) ->
  let c := dashboardClient this in
  let ns := namespace this in
  (List c (listKey "Service" ns) = Return l ->
   exists services,
     result (serviceListing this fm) = Return (ServiceListFactory services fm) /\
     forall n, filter (fun o => nameOf o = n) services = filter (fun o => nameOf o = n) l) /\
  (List c (listKey "Configuration" ns) = Return l ->
   exists configurations,
     result (configurationListing this fm)
       = Return (ConfigurationListFactory configurations fm) /\
     forall n, filter (fun o => nameOf o = n) configurations
               = filter (fun o => nameOf o = n) l) /\
  (List c (listKey "Route" ns) = Return l ->
   exists routes,
     result (routeListing this fm) = Return (RouteListFactory routes fm) /\
     forall n, filter (fun o => nameOf o = n) routes = filter (fun o => nameOf o = n) l).
Proof.
  intros Hrefl c ns.
  assert (forall n, filter (fun o => nameOf o = n) (Array_sort compareName l)
                    = filter (fun o => nameOf o = n) l) as Hst.
  { intros n. apply Array_sort_stable. intros a b Ha Hb.
    unfold SortCompare, compareName, nameOf in *. rewrite Ha, Hb.
    specialize (Hrefl n). lia. }
  split_and!; intros HL.
  - rewrite (serviceListing_result _ _ _ HL). by eexists.
  - rewrite (configurationListing_result _ _ _ HL). by eexists.
  - rewrite (routeListing_result _ _ _ HL). by eexists.
Qed.

(** X12. For two revisions whose generations are as the engine computes
    them (an integer a number holds exactly, or not a number, from a label
    of ASCII characters), the revision
    comparator is antisymmetric: swapping its arguments negates what the
    sort sees of it, a revision ties with itself, and the comparator
    answers [NaN] exactly when the generation of one of the two revisions
    is not a number. *)
Theorem compareGeneration_antisymmetric (a b : Revision) :
  exactGeneration a -> exactGeneration b ->
  SortCompare compareGeneration a b = - SortCompare compareGeneration b a /\
  SortCompare compareGeneration a a = 0 /\
  (compareGeneration a b = NaN <-> generationNumber a = NaN \/ generationNumber b = NaN).
Proof.
  intros _ _. clear localeCompare YAML_stringify.
  unfold SortCompare, compareGeneration, generationNumber.
  destruct (parseInt (generationOf a)), (parseInt (generationOf b)); simpl;
    split_and!; try lia; split; (discriminate || tauto || (intros [?|?]; discriminate)).
Qed.

Lemma blankGeneration_generationOf (r : Revision) :
  blankGeneration r -> generationOf r = "-1".
Proof.
  intros [H|H]; [by apply unlabelled_generationOf|].
  unfold generationOf. by rewrite H.
Qed.

(** X13. An empty label counts as a missing one.  A revision whose
    generation label is the empty string has generation -1 like a revision
    without the label: two such revisions tie, and each sorts strictly
    before every revision of non-negative generation. *)
Theorem blank_generation (r1 r2 r : Revision) :
  blankGeneration r1 -> blankGeneration r2 ->
  generationNumber r1 = Num (-1) /\
  compareGeneration r1 r2 = Num 0 /\
  (nonNegativeGeneration r ->
   SortCompare compareGeneration r1 r < 0 /\ 0 < SortCompare compareGeneration r r1).
Proof.
  intros H1%blankGeneration_generationOf H2%blankGeneration_generationOf.
  unfold generationNumber, compareGeneration, SortCompare, nonNegativeGeneration.
  rewrite H1, H2. split_and!; [done..|].
  intros (z & Hr & Hz). unfold generationNumber in Hr. rewrite Hr. simpl. lia.
Qed.

(** ** Beyond the claims: names and navigation *)

Lemma split_slash_length (s : string) :
  length (split_slash s) = S (countSlashes s).
Proof.
  induction s as [|c s IH]; simpl; [done|].
  destruct (Ascii.eqb c "/"); simpl; [by rewrite IH|].
  destruct (split_slash s); simpl in *; [done|by rewrite IH].
Qed.

Lemma detailName_None (request : ContentRequest) :
  detailName request = None <-> (countSlashes (contentPath request) < 2)%nat.
Proof.
  unfold detailName. rewrite lookup_ge_None, split_slash_length. lia.
Qed.

(** X14. The name of a detail page is undefined exactly when the path has
    fewer than two slashes.  No path that [contentHandler] sends to a detail
    handler is such a path, so the pages it serves always have a name.  A
    detail handler called on such a path all the same asks the client for an
    object without a name, and the page it returns has an undefined title
    text and a Delete button whose target has no name and whose confirmation
    reads "undefined". *)
Theorem detailName_defined (this : MyPlugin) (request : ContentRequest) :
  let ns := namespace this in
  (detailName request = None <-> (countSlashes (contentPath request) < 2)%nat) /\
  (detailPath (contentPath request) = true -> is_Some (detailName request)) /\
  (detailName request = None ->
   head (calls (serviceDetailHandler this request))
     = Some (GetCall (getKey "Service" ns None)) /\
   head (calls (configurationDetailHandler this request))
     = Some (GetCall (getKey "Configuration" ns None)) /\
   head (calls (routeDetailHandler this request))
     = Some (GetCall (getKey "Route" ns None)) /\
   forall response,
     result (serviceDetailHandler this request) = Return response ->
     last (resp_title response) = Some (TextFactory None) /\
     resp_buttonGroup response
       = Some (ButtonGroupFactory
                 [mkButton "Delete"
                    (mkPayload "action.octant.dev/deleteObject" "serving.knative.dev/v1"
                       "Service" ns None)
                    (mkConfirmation "Delete Service"
                       "Are you sure you want to delete *Service* **undefined**? This action is permanent and cannot be recovered.")])).
Proof.
  simpl. split_and!.
  - apply detailName_None.
  - destruct request as [p]. simpl. intros [rest Hp]%detailPath_inv.
    destruct (detailName_first rest) as (Hs & Hc & Hr).
    destruct Hp as [->|[->| ->]]; by eexists.
  - intros Hnone.
    unfold serviceDetailHandler, configurationDetailHandler, routeDetailHandler.
    rewrite Hnone. split_and!.
    + apply head_calls_bind, serviceDetail_first_call.
    + apply head_calls_bind, configurationDetail_first_call.
    + apply head_calls_bind, routeDetail_first_call.
    + intros response H. apply result_bind_Return in H as (body & _ & H).
      by injection H as <-.
Qed.

(** X15. Every entry of the navigation tree leads to a page: the content
    path made of a slash and the entry's path is a listing page, whose
    breadcrumbs end in the entry's title and begin with a link that carries
    the title of the tree's root and points to its path. *)
Theorem navigation_entries_are_pages (this : MyPlugin) :
  let nav := navigationHandler this in
  Forall
    (fun entry =>
       exists kind factory,
         listingPageOf (dashboardClient this) (listKey kind (namespace this))
           (entry_title entry) factory
           (contentHandler this (mkContentRequest ("/" +:+ entry_path entry))))
    (nav_children nav) /\
  LinkFactory "Knative" "/knative" = LinkFactory (nav_title nav) ("/" +:+ nav_path nav).
Proof.
  simpl. split; [|done].
  repeat (apply Forall_cons; split); [..|apply Forall_nil_2].
  - eexists _, _. apply serviceListingHandler_page.
  - eexists _, _. apply configurationListingHandler_page.
  - eexists _, _. apply routeListingHandler_page.
Qed.

End Plugin.

(** * The theorems at work on sample data *)

Lemma codeUnitCompare_le (a b : string) : codeUnitCompare a b <= 0 <-> String.le a b.
Proof.
  unfold codeUnitCompare, String.le, String.leb.
  destruct (String.compare a b); simpl; split; (lia || done).
Qed.

Lemma codeUnitCompare_consistent : consistentComparator codeUnitCompare.
Proof.
  split.
  - intros a b H. unfold codeUnitCompare in *.
    rewrite (String.compare_antisym b a). destruct (String.compare a b); simpl in *; lia.
  - intros a b c. rewrite !codeUnitCompare_le. apply transitivity.
Qed.

(** A path outside the table is not found. *)
Lemma contentHandler_dispatch_witness :
  contentHandler codeUnitCompare sampleYAML (samplePlugin [] []) (mkContentRequest "/revisions")
    = ret (createContentResponse [TextFactory (Some "Not Found - /revisions")]
             [TextFactory (Some "Not Found - /revisions")] None) /\
  contains "Not Found - /revisions" "/revisions".
Proof.
  destruct (contentHandler_dispatch codeUnitCompare sampleYAML (samplePlugin [] [])
              (mkContentRequest "/revisions")) as (_ & _ & _ & _ & _ & _ & _ & H & _).
  apply H; (discriminate || reflexivity).
Defined.

(** Generations 5, none and 2 come out as none, 2, 5. *)
Lemma detail_revisions_sorted_witness :
  exists revisions,
    result (serviceDetail sampleYAML
              (samplePlugin [revisionFive; revisionBare; revisionTwo] []) (Some "hello"))
      = Return [ServiceSummaryFactory helloService revisions summaryMetadata;
                yamlEditor sampleYAML helloService] /\
    revisions ≡ₚ [revisionFive; revisionBare; revisionTwo] /\
    StronglySorted generationLe revisions /\ unlabelledFirst revisions.
Proof.
  apply (detail_revisions_sorted sampleYAML
           (samplePlugin [revisionFive; revisionBare; revisionTwo] []) (Some "hello")
           helloService [revisionFive; revisionBare; revisionTwo]).
  - repeat constructor; vm_compute; discriminate.
  - reflexivity.
  - reflexivity.
Defined.

(** C2, as the claim has it, fails.  The client lists a revision of
    generation 5, one labelled "canary" and one without the label; the
    comparator answers [NaN] whenever "canary" is involved, nothing moves,
    and the revision without the label stays last, after generation 5. *)
Lemma detail_revisions_unlabelled_last :
  ~ (forall (YAML_stringify : KObject -> string) (this : MyPlugin) (name : option string)
            (service : Service) (revisions : list Revision)
            (fm : option FactoryMetadata) (editor : ComponentFactory),
       result (serviceDetail YAML_stringify this name)
         = Return [ServiceSummaryFactory service revisions fm; editor] ->
       unlabelledFirst revisions).
Proof.
  intros H.
  specialize (H sampleYAML (samplePlugin [revisionFive; revisionCanary; revisionBare] [])
                (Some "hello") helloService [revisionFive; revisionCanary; revisionBare]
                _ _ eq_refl).
  specialize (H 2%nat 0%nat revisionBare revisionFive eq_refl eq_refl).
  assert (2 < 0)%nat as Habsurd; [|lia].
  apply H; [reflexivity|]. exists 5. split; [reflexivity|lia].
Qed.

(** Two services under comparison by code units. *)
Lemma listings_sorted_by_name_witness :
  exists services,
    result (serviceListing codeUnitCompare (samplePlugin [] [helloService; adderService]) None)
      = Return (ServiceListFactory services None) /\
    services ≡ₚ [helloService; adderService] /\
    StronglySorted (nameLe codeUnitCompare) services.
Proof.
  destruct (listings_sorted_by_name codeUnitCompare
              (samplePlugin [] [helloService; adderService]) None
              [helloService; adderService] codeUnitCompare_consistent) as (H & _ & _).
  apply H. reflexivity.
Defined.

(** The two calls behind the page of the service "hello". *)
Lemma detail_revisions_fetched_witness :
  calls (serviceDetail sampleYAML (samplePlugin [revisionTwo; revisionFive] []) (Some "hello"))
    = [GetCall (getKey "Service" "default" (Some "hello"));
       ListCall (revisionsKey "default" "serving.knative.dev/service" (Some "hello"))] /\
  exists revisions,
    result (serviceDetail sampleYAML (samplePlugin [revisionTwo; revisionFive] [])
              (Some "hello"))
      = Return [ServiceSummaryFactory helloService revisions summaryMetadata;
                yamlEditor sampleYAML helloService] /\
    revisions ≡ₚ [revisionTwo; revisionFive].
Proof.
  destruct (detail_revisions_fetched sampleYAML
              (samplePlugin [revisionTwo; revisionFive] []) (Some "hello")) as (H & _).
  apply (H helloService [revisionTwo; revisionFive]); reflexivity.
Defined.



(** The sample client refuses to list routes, and so does the page. *)
Lemma contentHandler_passes_through_witness :
  result (contentHandler codeUnitCompare sampleYAML (samplePlugin [] [])
            (mkContentRequest "/routes"))
    = Throw (mkError "forbidden").
Proof.
  destruct (contentHandler_passes_through codeUnitCompare sampleYAML (samplePlugin [] [])
              (mkContentRequest "/routes")) as (H & _ & _).
  apply (H (ListCall (listKey "Route" "default"))); [|reflexivity].
  apply list_elem_of_singleton. reflexivity.
Defined.

(** Switching to the namespace "knative-serving". *)
Lemma actionHandler_frame_witness :
  namespace (fst (actionHandler (samplePlugin [] [])
                    (mkActionRequest "action.octant.dev/setNamespace"
                       (mkActionPayload "knative-serving"))))
    = "knative-serving".
Proof.
  destruct (actionHandler_frame (samplePlugin [] [])
              (mkActionRequest "action.octant.dev/setNamespace"
                 (mkActionPayload "knative-serving"))) as (_ & H & _).
  apply H. reflexivity.
Defined.

(** Segments after the name do not count. *)
Lemma detail_name_is_third_segment_witness :
  detailName (mkContentRequest "/services/hello/revisions/hello-00005") = Some "hello" /\
  detailPageFor "Service" (samplePlugin [revisionFive] []) "hello"
    (serviceDetail sampleYAML (samplePlugin [revisionFive] []) (Some "hello"))
    (contentHandler codeUnitCompare sampleYAML (samplePlugin [revisionFive] [])
       (mkContentRequest "/services/hello/revisions/hello-00005")).
Proof.
  exact (proj1 (detail_name_is_third_segment codeUnitCompare sampleYAML
                  (samplePlugin [revisionFive] []) "hello/revisions/hello-00005")).
Defined.

(** ** The further properties on sample data *)

Lemma codeUnitCompare_refl (s : string) : 0 <= codeUnitCompare s s.
Proof.
  unfold codeUnitCompare.
  pose proof (String.compare_antisym s s) as H.
  destruct (String.compare s s); simpl in H; (lia || discriminate H).
Qed.

(** The one action that changes a new plugin is a declared one. *)
Lemma actionHandler_changes_only_declared_witness :
  "action.octant.dev/setNamespace"
    ∈ actionNames (capabilities (runActions (new_MyPlugin deadClient theHTTPClient) [])).
Proof.
  apply (actionHandler_changes_only_declared deadClient theHTTPClient []
           (mkActionRequest "action.octant.dev/setNamespace" (mkActionPayload "prod"))).
  simpl. intros H. by apply (f_equal namespace) in H.
Defined.

(** The page of the service "hello" has its Delete button. *)
Lemma delete_button_only_on_detail_witness :
  match result (contentHandler codeUnitCompare sampleYAML (samplePlugin [revisionFive] [])
                  (mkContentRequest "/services/hello")) with
  | Return response =>
      exists kind name confirmation,
        resp_buttonGroup response
          = Some (ButtonGroupFactory
                    [mkButton "Delete"
                       (mkPayload "action.octant.dev/deleteObject" "serving.knative.dev/v1"
                          kind "default" name)
                       confirmation])
  | Throw _ => False
  end.
Proof.
  destruct (result (contentHandler codeUnitCompare sampleYAML (samplePlugin [revisionFive] [])
                      (mkContentRequest "/services/hello"))) as [response|e] eqn:H.
  - apply (delete_button_only_on_detail codeUnitCompare sampleYAML
             (samplePlugin [revisionFive] []) (mkContentRequest "/services/hello")
             response H).
    reflexivity.
  - vm_compute in H. discriminate H.
Defined.

(** "/services-old", "/configurations-old" and "/routes-old" are not pages. *)
Lemma listing_path_extension_not_found_witness :
  Forall
    (fun p =>
       contentHandler codeUnitCompare sampleYAML (samplePlugin [] [])
         (mkContentRequest (p +:+ "-old"))
         = ([], Return (createContentResponse
                          [TextFactory (Some ("Not Found - " +:+ p +:+ "-old"))]
                          [TextFactory (Some ("Not Found - " +:+ p +:+ "-old"))] None)))
    ["/services"; "/configurations"; "/routes"].
Proof.
  apply (listing_path_extension_not_found codeUnitCompare sampleYAML (samplePlugin [] [])
           "-old"); [discriminate|reflexivity].
Defined.

(** Two services named "hello" around one named "adder" keep their order. *)
Lemma listing_keeps_order_of_equal_names_witness :
  exists services,
    result (serviceListing codeUnitCompare
              (samplePlugin []
                 [helloService; adderService; sampleObject "Service" "hello" (Some ∅)])
              None)
      = Return (ServiceListFactory services None) /\
    forall n,
      filter (fun o => nameOf o = n) services
        = filter (fun o => nameOf o = n)
            [helloService; adderService; sampleObject "Service" "hello" (Some ∅)].
Proof.
  destruct (listing_keeps_order_of_equal_names codeUnitCompare
              (samplePlugin []
                 [helloService; adderService; sampleObject "Service" "hello" (Some ∅)])
              None
              [helloService; adderService; sampleObject "Service" "hello" (Some ∅)]
              codeUnitCompare_refl) as (H & _).
  apply H. reflexivity.
Defined.

(** Generation 5 against the label "canary". *)
Lemma compareGeneration_antisymmetric_witness :
  SortCompare compareGeneration revisionFive revisionCanary
    = - SortCompare compareGeneration revisionCanary revisionFive /\
  SortCompare compareGeneration revisionFive revisionFive = 0 /\
  (compareGeneration revisionFive revisionCanary = NaN <->
   generationNumber revisionFive = NaN \/ generationNumber revisionCanary = NaN).
Proof.
  apply (compareGeneration_antisymmetric revisionFive revisionCanary).
  - right. vm_compute. discriminate.
  - left. split; reflexivity.
Defined.

(** A revision without the label and one with an empty label. *)
Lemma blank_generation_witness :
  generationNumber revisionBare = Num (-1) /\
  compareGeneration revisionBare (sampleRevision "hello-blank" (Some "")) = Num 0 /\
  (nonNegativeGeneration revisionFive ->
   SortCompare compareGeneration revisionBare revisionFive < 0 /\
   0 < SortCompare compareGeneration revisionFive revisionBare).
Proof.
  apply (blank_generation revisionBare (sampleRevision "hello-blank" (Some "")) revisionFive).
  - left. reflexivity.
  - right. reflexivity.
Defined.

(** ** The model on small inputs *)

Example parseInt_examples :
  parseInt "-1" = Num (-1) /\ parseInt "12" = Num 12 /\ parseInt "  42abc" = Num 42 /\
  parseInt "0x1F" = Num 31 /\ parseInt "canary" = NaN /\ parseInt "" = NaN /\
  parseInt "-" = NaN.
Proof. repeat split; reflexivity. Qed.

Example split_slash_examples :
  split_slash "" = [""] /\ split_slash "/services/a/b" = [""; "services"; "a"; "b"] /\
  split_slash "/services/" = [""; "services"; ""] /\ split_slash "/services" = [""; "services"].
Proof. repeat split; reflexivity. Qed.

Example generationOf_examples :
  generationOf revisionFive = "5" /\ generationOf revisionBare = "-1" /\
  generationOf (sampleRevision "empty" (Some "")) = "-1" /\
  compareGeneration revisionFive revisionBare = Num 6 /\
  compareGeneration revisionFive revisionCanary = NaN /\
  compareGeneration revisionCanary revisionBare = NaN.
Proof. repeat split; reflexivity. Qed.

Example Array_sort_generation_example :
  Array_sort compareGeneration [revisionFive; revisionBare; revisionTwo]
    = [revisionBare; revisionTwo; revisionFive] /\
  Array_sort compareGeneration [revisionFive; revisionCanary; revisionBare]
    = [revisionFive; revisionCanary; revisionBare].
Proof. split; reflexivity. Qed.

Example Array_sort_name_example :
  Array_sort (compareName codeUnitCompare) [helloService; adderService; helloService]
    = [adderService; helloService; helloService].
Proof. reflexivity. Qed.
